(** * skillexa: authentication, authorization and audit core

    A shallow embedding of the Express/Mongoose backend:
      - server/models/AuditLog.js     (audit schema, [createLog], activity
                                       queries)
      - server/middleware/auth.js     (token check, role / permission /
                                       ownership guards)
      - server/routes/auth.js         (register, login, forgot/reset password)
      - the users router              (DELETE /:id, a soft delete)

    Collections are lists of documents in insertion order, a handler is a
    computation over the database that may throw, and everything a handler
    reads from outside (clock, random bytes, mail transport, environment
    variables) is gathered in an [Env] record. *)

From stdpp Require Import base option list strings gmap pretty sorting.
From Stdlib Require Import ZArith.

Open Scope Z_scope.

#[local] Set Warnings "-register-all".
#[local] Set Default Proof Using "Type".

(** ** Identifiers and session tokens *)

Definition ObjectId := string.

(** The claims of a token made by [jwt.sign({ userId }, secret, { expiresIn })]:
    [userId] is the id as the JSON of the payload has it, a string; [iat]
    and [exp] are in seconds. *)
Record JwtPayload := mkPayload { userId : string; iat : Z; exp : Z }.

(** A segment of the Authorization header, read as a compact JWS: either it
    decodes to a payload and a signature, or it is some other string. *)
Inductive Token :=
  | Opaque (s : string)
  | Jwt (p : JwtPayload) (signature : string).

(** ** JSON values sent to clients and stored in audit details *)

Inductive Json :=
  | JNull
  | JBool (b : bool)
  | JNum (z : Z)
  | JStr (s : string)
  | JTok (t : Token)        (* a string that is a session token *)
  | JArr (l : list Json)
  | JObj (fields : list (string * Json)).

Definition JOpt (o : option string) : Json :=
  match o with Some s => JStr s | None => JNull end.

Definition JOptNum (o : option Z) : Json :=
  match o with Some z => JNum z | None => JNull end.

(** JavaScript truthiness of an optional string: [undefined] and the empty
    string are falsy. *)
Definition truthy (o : option string) : bool :=
  match o with
  | Some s => negb (bool_decide (s = ""))
  | None => false
  end.

(** [res.status(code).json(body)]; [res.json(body)] uses status 200. *)
Record Response := mkResponse { status : Z; body : Json }.

Definition res_json (b : Json) : Response := mkResponse 200 b.

Definition error_body (message code : string) : Json :=
  JObj [("message", JStr message); ("code", JStr code)].

(** ** Documents *)

(** The fields of a User document that the routes and middleware touch. *)
Record User := mkUser {
  _id : ObjectId;
  email : string;
  password : string;
  firstName : string;
  lastName : string;
  role : string;
  isActive : bool;
  isEmailVerified : bool;
  loginAttempts : Z;
  lockUntil : option Z;
  lastLogin : option Z;
  emailVerificationToken : option string;
  passwordResetToken : option string;
  passwordResetExpires : option Z
}.

Definition set_email (e : string) (u : User) : User :=
  mkUser (_id u) e (password u) (firstName u) (lastName u) (role u)
    (isActive u) (isEmailVerified u) (loginAttempts u) (lockUntil u)
    (lastLogin u) (emailVerificationToken u) (passwordResetToken u)
    (passwordResetExpires u).

Definition set_password (p : string) (u : User) : User :=
  mkUser (_id u) (email u) p (firstName u) (lastName u) (role u)
    (isActive u) (isEmailVerified u) (loginAttempts u) (lockUntil u)
    (lastLogin u) (emailVerificationToken u) (passwordResetToken u)
    (passwordResetExpires u).

Definition set_isActive (b : bool) (u : User) : User :=
  mkUser (_id u) (email u) (password u) (firstName u) (lastName u) (role u)
    b (isEmailVerified u) (loginAttempts u) (lockUntil u)
    (lastLogin u) (emailVerificationToken u) (passwordResetToken u)
    (passwordResetExpires u).

Definition set_login_state (n : Z) (l : option Z) (u : User) : User :=
  mkUser (_id u) (email u) (password u) (firstName u) (lastName u) (role u)
    (isActive u) (isEmailVerified u) n l
    (lastLogin u) (emailVerificationToken u) (passwordResetToken u)
    (passwordResetExpires u).

Definition set_lastLogin (t : option Z) (u : User) : User :=
  mkUser (_id u) (email u) (password u) (firstName u) (lastName u) (role u)
    (isActive u) (isEmailVerified u) (loginAttempts u) (lockUntil u)
    t (emailVerificationToken u) (passwordResetToken u)
    (passwordResetExpires u).

Definition set_passwordReset (t : option string) (e : option Z) (u : User) : User :=
  mkUser (_id u) (email u) (password u) (firstName u) (lastName u) (role u)
    (isActive u) (isEmailVerified u) (loginAttempts u) (lockUntil u)
    (lastLogin u) (emailVerificationToken u) t e.

(** What callers hand to [AuditLog.createLog]. *)
Record LogData := mkLogData {
  ld_user : ObjectId;
  ld_action : string;
  ld_resource : string;
  ld_resourceId : ObjectId;
  ld_details : Json;
  ld_ipAddress : option string;
  ld_userAgent : option string;
  ld_severity : string;
  ld_status : string
}.

(** A stored audit document: the data plus the defaulted [timestamp]. *)
Record AuditLog := mkAuditLog { al_data : LogData; al_timestamp : Z }.

Record Db := mkDb { users : list User; auditLogs : list AuditLog }.

(** ** Computations: database state plus exceptions

    A thrown error does not roll the database back: what was saved before
    the throw stays saved, as with Mongoose. *)

Inductive JsError :=
  | ValidationError (path : string)
  | JsonWebTokenError
  | TokenExpiredError
  | MailError
  | TypeError
  | CastError.

Inductive Outcome (A : Type) :=
  | Return (a : A)
  | Throw (e : JsError).
Arguments Return {A} a.
Arguments Throw {A} e.

Definition Async (A : Type) : Type := Db → Outcome A * Db.

#[global] Instance Async_ret : MRet Async := λ A a db, (Return a, db).

#[global] Instance Async_bind : MBind Async := λ A B k m db,
  match m db with
  | (Return a, db') => k a db'
  | (Throw e, db') => (Throw e, db')
  end.

Definition throw {A} (e : JsError) : Async A := λ db, (Throw e, db).

Definition tryCatch {A} (m : Async A) (handler : JsError → Async A) : Async A :=
  λ db,
    match m db with
    | (Return a, db') => (Return a, db')
    | (Throw e, db') => handler e db'
    end.

Definition getDb : Async Db := λ db, (Return db, db).
Definition putDb (db' : Db) : Async unit := λ _, (Return (), db').

(** A synchronous call that returns or throws. *)
Definition lift {A} (o : Outcome A) : Async A := λ db, (o, db).

(** Stepping through a handler. *)
Ltac run :=
  unfold tryCatch, mbind, Async_bind, mret, Async_ret, getDb, putDb, throw, lift;
  cbn [fst snd].

(** Closed decidable facts. *)
Ltac decided := apply (bool_decide_unpack _); vm_compute; exact I.
Ltac computed := vm_compute; reflexivity.

(** ** server/models/AuditLog.js *)

Module AuditLogModel.

Definition action_enum : list string :=
  [ "LOGIN"; "LOGOUT"; "REGISTER"; "PASSWORD_RESET"; "EMAIL_VERIFY";
    "USER_CREATE"; "USER_UPDATE"; "USER_DELETE"; "USER_ROLE_CHANGE";
    "COURSE_CREATE"; "COURSE_UPDATE"; "COURSE_DELETE"; "COURSE_PUBLISH";
    "ASSIGNMENT_CREATE"; "ASSIGNMENT_UPDATE"; "ASSIGNMENT_DELETE";
    "GRADE_CREATE"; "GRADE_UPDATE"; "ENROLLMENT_CREATE"; "ENROLLMENT_DELETE";
    "SYSTEM_CONFIG_UPDATE"; "BACKUP_CREATE"; "BACKUP_RESTORE" ].

Definition severity_enum : list string := ["LOW"; "MEDIUM"; "HIGH"; "CRITICAL"].

Definition status_enum : list string := ["SUCCESS"; "FAILURE"; "WARNING"].

(** Schema validation run by [Model.create]: the first failing path is
    reported. [user] and [resourceId] are always supplied by the callers. *)
Definition validate (d : LogData) : option JsError :=
  if negb (bool_decide (ld_action d ∈ action_enum)) then Some (ValidationError "action")
  else if bool_decide (ld_resource d = "") then Some (ValidationError "resource")
  else if negb (bool_decide (ld_severity d ∈ severity_enum)) then Some (ValidationError "severity")
  else if negb (bool_decide (ld_status d ∈ status_enum)) then Some (ValidationError "status")
  else None.

(** [auditLogSchema.statics.createLog]: [this.create(logData)]. *)
Definition createLog (now : Z) (d : LogData) : Async AuditLog :=
  match validate d with
  | Some e => throw e
  | None =>
      let doc := mkAuditLog d now in
      db ← getDb;
      putDb (mkDb (users db) (auditLogs db ++ [doc]));;
      mret doc
  end.

End AuditLogModel.

(** ** The outside world of one request *)

Record Env := mkEnv {
  now : Z;                    (* Date.now(), milliseconds *)
  randomHex : string;         (* crypto.randomBytes(32).toString('hex') *)
  newObjectId : ObjectId;     (* the _id Mongoose gives to [new User] *)
  mailDelivers : bool;        (* does transporter.sendMail resolve? *)
  JWT_SECRET : string;        (* process.env.JWT_SECRET *)
  JWT_EXPIRES_IN : option Z;  (* process.env.JWT_EXPIRES_IN, in seconds *)
  CLIENT_URL : string         (* process.env.CLIENT_URL *)
}.

(** ** Collection queries *)

Definition findOne (P : User → bool) (db : Db) : option User :=
  snd <$> list_find (λ u, P u = true) (users db).

(** An [ObjectId] is written as [toString()] gives it: 24 hex digits,
    letters in lower case. Mongoose casts a string to an ObjectId before it
    queries: hex digits of either case name the same id, and a string that
    is not 24 hex digits is a CastError. (Other spellings that some versions
    of the driver accept are left out.) *)
Definition hexLower (c : Ascii.ascii) : option Ascii.ascii :=
  let n := Ascii.nat_of_ascii c in
  if bool_decide (48 ≤ n ≤ 57)%nat || bool_decide (97 ≤ n ≤ 102)%nat then Some c
  else if bool_decide (65 ≤ n ≤ 70)%nat then Some (Ascii.ascii_of_nat (n + 32))
  else None.

Fixpoint hexString (s : string) : option string :=
  match s with
  | EmptyString => Some EmptyString
  | String c rest =>
      match hexLower c, hexString rest with
      | Some c', Some rest' => Some (String c' rest')
      | _, _ => None
      end
  end.

Definition castObjectId (s : string) : option ObjectId :=
  if bool_decide (String.length s = 24%nat) then hexString s else None.

(** The document whose [_id] is the ObjectId [oid]. *)
Definition lookupId (oid : ObjectId) : Db → option User :=
  findOne (λ u, bool_decide (_id u = oid)).

(** [User.findById(id)]: the id is cast, then looked up. *)
Definition findById (id : string) (db : Db) : Outcome (option User) :=
  match castObjectId id with
  | Some oid => Return (lookupId oid db)
  | None => Throw CastError
  end.

(** ** Values of a request body in a query filter

    A field of [req.body] may be any JSON value, and a route that passes it
    to a filter on a String path lets Mongoose cast it: a string, a number
    or a boolean is compared as a string, [null] selects the documents
    without the field, an object of query operators ([{ "$ne": null }],
    [{ "$regex": ... }]) selects the documents whose field satisfies them,
    and an array or an object without operators is a CastError. An object
    of operators is given by the field values it selects. *)
Inductive BodyValue :=
  | BNull
  | BStr (s : string)
  | BNum (z : Z)
  | BBool (b : bool)
  | BOperators (selects : option string → bool)
  | BUncastable.

(** JavaScript truthiness of a body value. *)
Definition truthyValue (v : BodyValue) : bool :=
  match v with
  | BNull => false
  | BStr s => negb (bool_decide (s = ""))
  | BNum z => negb (bool_decide (z = 0))
  | BBool b => b
  | BOperators _ | BUncastable => true
  end.

(** The condition [{ path: v }] puts on a String path. *)
Definition castStringFilter (v : BodyValue) : Outcome (option string → bool) :=
  match v with
  | BNull => Return (λ field, bool_decide (field = None))
  | BStr s => Return (λ field, bool_decide (field = Some s))
  | BNum z => Return (λ field, bool_decide (field = Some (pretty z)))
  | BBool b => Return (λ field, bool_decide (field = Some (if b then "true" else "false")))
  | BOperators selects => Return selects
  | BUncastable => Throw CastError
  end.

(** [{ "$ne": null }]: the field is there and is not null. *)
Definition isSet (field : option string) : bool := bool_decide (field ≠ None).

Definition notNull : BodyValue := BOperators isSet.

Definition findByEmail (e : string) : Db → option User :=
  findOne (λ u, bool_decide (email u = e)).

(** Writing the modified paths of the document [id] back to the collection
    ([doc.save()] and [doc.updateOne()]). *)
Definition updateById (id : ObjectId) (f : User → User) : Async unit :=
  λ db,
    (Return (),
     mkDb ((λ u, if bool_decide (_id u = id) then f u else u) <$> users db)
          (auditLogs db)).

Definition insertUser (u : User) : Async unit :=
  λ db, (Return (), mkDb (users db ++ [u]) (auditLogs db)).

(** A promise that nobody awaits: its effect on the database happens, its
    rejection reaches no handler. *)
Definition detached {A} (m : Async A) : Async unit :=
  λ db, (Return (), snd (m db)).

(** ** Requests and middleware results *)

Record Request := mkRequest {
  authorization : option (list Token);  (* the header, split at spaces *)
  params : gmap string string;          (* req.params *)
  req_user : option User;               (* req.user *)
  resource : option (gmap string string); (* req.resource *)
  originalUrl : string;
  method : string;
  ip : option string;
  userAgent : option string             (* req.get('User-Agent') *)
}.

Definition with_user (u : User) (req : Request) : Request :=
  mkRequest (authorization req) (params req) (Some u) (resource req)
    (originalUrl req) (method req) (ip req) (userAgent req).

(** A middleware either hands the request on ([next()]) or answers it. *)
Inductive Step :=
  | Next (req : Request)
  | Send (r : Response).

(** ** models/User.js

    The model file is not among the sources. Its lockout and permission
    logic is written down from the specification; bcrypt, the [fullName]
    virtual and the role table are parameters of the development. *)

Definition maxLoginAttempts : Z := 5.

(** [lockoutDuration: 120 // minutes] of the security settings, in ms. *)
Definition lockoutDuration : Z := 120 * 60 * 1000.

(** Modelled from the spec: the [isLocked] virtual of models/User.js, which
    is missing. An account is locked while its lockout-until timestamp is in
    the future. *)
Definition isLocked (now : Z) (u : User) : bool :=
  match lockUntil u with
  | Some t => bool_decide (now < t)
  | None => false
  end.

(** Modelled from the spec: [incLoginAttempts] of models/User.js, which is
    missing. It increments the failed-login counter; when the counter
    reaches the threshold (5) it sets lockout-until to now plus the fixed
    duration. *)
Definition incLoginAttempts (now : Z) (u : User) : User :=
  let n := loginAttempts u + 1 in
  set_login_state n
    (if bool_decide (maxLoginAttempts ≤ n) then Some (now + lockoutDuration)
     else lockUntil u) u.

(** Modelled from the spec: [resetLoginAttempts] of models/User.js, which is
    missing. It resets the failed-login counter to zero and drops the
    lockout. *)
Definition resetLoginAttempts (u : User) : User :=
  set_login_state 0 None u.

(** Modelled from the spec: [hasPermission] of models/User.js, which is
    missing. Each role maps to a fixed allow-list of permission strings or
    to the wildcard; [table] is that mapping. *)
Definition hasPermission (table : string → list string) (u : User)
    (permission : string) : bool :=
  bool_decide ("*" ∈ table (role u)) || bool_decide (permission ∈ table (role u)).

(** Modelled from the spec: the schema defaults of models/User.js, which is
    missing. A new account is unverified and active, with no failed logins
    and no lockout. *)
Definition newUser (id : ObjectId) (email passwordHash firstName lastName role : string)
    (emailVerificationToken : string) : User :=
  mkUser id email passwordHash firstName lastName role true false 0 None None
    (Some emailVerificationToken) None None.

(** ** Sample data *)

Module Sample.

Definition hmac (secret : string) (p : JwtPayload) : string :=
  secret +:+ "/" +:+ userId p +:+ "/" +:+ pretty (iat p) +:+ "/" +:+ pretty (exp p).

Definition hashPassword (p : string) : string := "$2a$" +:+ p.

Definition bcrypt_compare (candidate hash : string) : bool :=
  bool_decide (hashPassword candidate = hash).

Definition fullName (u : User) : string := firstName u +:+ " " +:+ lastName u.

Definition rolePermissions (r : string) : list string :=
  if bool_decide (r = "admin") then ["*"]
  else if bool_decide (r = "instructor") then ["course:create"; "course:update"]
  else ["course:read"].

Definition isValidObjectId (s : string) : bool :=
  match castObjectId s with Some _ => true | None => false end.

Definition documentJson (deselected : list string) (u : User) : Json :=
  JObj (filter (λ field, field.1 ∉ deselected)
    [("_id", JStr (_id u)); ("email", JStr (email u)); ("password", JStr (password u));
     ("firstName", JStr (firstName u)); ("lastName", JStr (lastName u));
     ("role", JStr (role u)); ("isActive", JBool (isActive u));
     ("isEmailVerified", JBool (isEmailVerified u));
     ("emailVerificationToken", JOpt (emailVerificationToken u));
     ("passwordResetToken", JOpt (passwordResetToken u))]).

Definition root_id : ObjectId := "650000000000000000000001".
Definition alice_id : ObjectId := "650000000000000000000002".
Definition bob_id : ObjectId := "650000000000000000000003".

Definition root : User :=
  mkUser root_id "root@example.com" (hashPassword "R00t!pass") "Root" "Admin"
    "admin" true true 0 None None None None None.

Definition alice : User :=
  mkUser alice_id "alice@example.com" (hashPassword "Passw0rd!") "Alice" "Doe"
    "student" true false 0 None None None None None.

(** Bob is locked until t = 9 000 000 and holds a reset token. *)
Definition bob : User :=
  mkUser bob_id "bob@example.com" (hashPassword "B0b!pass") "Bob" "Roe"
    "student" true true 5 (Some 9000000) None None
    (Some "f00d") (Some 5000000).

Definition db0 : Db := mkDb [root; alice; bob] [].

Definition env0 : Env :=
  mkEnv 1000000 "c0ffee" "650000000000000000000004" true "s3cret" None
    "http://localhost:3000".

Definition mailDown : Env :=
  mkEnv 1000000 "c0ffee" "650000000000000000000004" false "s3cret" None
    "http://localhost:3000".

Definition at_time (t : Z) : Env :=
  mkEnv t "c0ffee" "650000000000000000000004" true "s3cret" None
    "http://localhost:3000".

Definition anonymous : Request :=
  mkRequest None ∅ None None "/api/auth/login" "POST" (Some "10.0.0.7") (Some "curl/8").

Definition as_user (u : User) (url method : string) (id : option string)
    (res : option (gmap string string)) : Request :=
  mkRequest None (from_option (λ i, {["id" := i]}) ∅ id) (Some u) res url method
    (Some "10.0.0.7") (Some "curl/8").

Definition bearer (t : Token) (url method : string) (id : option string) : Request :=
  mkRequest (Some [Opaque "Bearer"; t]) (from_option (λ i, {["id" := i]}) ∅ id)
    None None url method (Some "10.0.0.7") (Some "curl/8").

Definition listUsers : Request := as_user alice "/api/users" "GET" None None.

Definition createCourse : Request := as_user alice "/api/courses" "POST" None None.

(** Alice asks for a grade that belongs to Bob; the resource is attached. *)
Definition readGrade : Request :=
  as_user alice "/api/grades/650000000000000000000009" "GET"
    (Some "650000000000000000000009") (Some {["user" := bob_id]}).

(** Alice asks for an enrollment; no resource is attached. *)
Definition enrollment : Request :=
  as_user alice "/api/enrollments/650000000000000000000009" "GET"
    (Some "650000000000000000000009") None.

(** Session tokens issued at t = 900 000 ms with the default lifetime. *)
Definition bobPayload : JwtPayload := mkPayload bob_id 900 605700.
Definition bobToken : Token := Jwt bobPayload (hmac "s3cret" bobPayload).
Definition rootPayload : JwtPayload := mkPayload root_id 900 605700.
Definition rootToken : Token := Jwt rootPayload (hmac "s3cret" rootPayload).

Definition meAsBob : Request := bearer bobToken "/api/auth/me" "GET" None.

Definition deleteAlice : Request :=
  bearer rootToken "/api/users/650000000000000000000002" "DELETE" (Some alice_id).

Definition deleteSelf : Request :=
  bearer rootToken "/api/users/650000000000000000000001" "DELETE" (Some root_id).

(** Five wrong guesses at Alice's password, a second apart. *)
Definition fourGuesses : list (Env * Request * string) :=
  [ (at_time 1000000, anonymous, "guess1"); (at_time 1001000, anonymous, "guess2");
    (at_time 1002000, anonymous, "guess3"); (at_time 1003000, anonymous, "guess4") ].

Definition fifthGuess : Env * Request * string :=
  (at_time 1004000, anonymous, "guess5").

(** Carol has registered and not yet verified her address. *)
Definition carol_id : ObjectId := "650000000000000000000005".

Definition carol : User :=
  mkUser carol_id "carol@example.com" (hashPassword "Car0l!pass") "Carol" "Poe"
    "student" true false 0 None None (Some "beef") None None.

Definition db1 : Db := mkDb [root; alice; bob; carol] [].

(** Alice's session token, issued at t = 1 000 000 ms, and a forgery of it. *)
Definition alicePayload : JwtPayload := mkPayload alice_id 1000 605800.
Definition aliceToken : Token := Jwt alicePayload (hmac "s3cret" alicePayload).
Definition forgedToken : Token := Jwt alicePayload "forged".

Definition meAsAlice : Request := bearer aliceToken "/api/auth/me" "GET" None.

Definition meForged : Request := bearer forgedToken "/api/auth/me" "GET" None.

(** Alice, a student, tries to delete Bob. *)
Definition aliceDeletesBob : Request :=
  bearer aliceToken "/api/users/650000000000000000000003" "DELETE" (Some bob_id).

(** Alice asks for Bob's profile and activity, and for her own. *)
Definition aliceReadsBob : Request :=
  as_user alice "/api/users/650000000000000000000003" "GET" (Some bob_id) None.

Definition aliceReadsSelf : Request :=
  as_user alice "/api/users/650000000000000000000002" "GET" (Some alice_id) None.

Definition aliceProfile : Request := as_user alice "/api/auth/change-password" "POST" None None.

(** A trail of three events: Alice at t = 10, Bob at t = 20, Alice at t = 30. *)
Definition event (actor : ObjectId) (action severity : string) (t : Z) : AuditLog :=
  mkAuditLog (mkLogData actor action "User" actor (JObj []) None None severity "SUCCESS") t.

Definition trail : list AuditLog :=
  [ event alice_id "LOGIN" "LOW" 10; event bob_id "LOGIN" "LOW" 20;
    event alice_id "PASSWORD_RESET" "MEDIUM" 30 ].

Definition db2 : Db := mkDb [root; alice; bob] trail.

(** Ada is an admin whose id has letters among its hex digits; she sends
    DELETE /users/:id with her own id spelled in upper case. *)
Definition ada_id : ObjectId := "65ab000000000000000000a7".

Definition ada : User :=
  mkUser ada_id "ada@example.com" (hashPassword "Ad4!passw") "Ada" "Lee"
    "admin" true true 0 None None None None None.

Definition db3 : Db := mkDb [ada; alice; bob] [].

Definition adaPayload : JwtPayload := mkPayload ada_id 900 605700.
Definition adaToken : Token := Jwt adaPayload (hmac "s3cret" adaPayload).

Definition adaDeletesSelf : Request :=
  bearer adaToken "/api/users/65AB000000000000000000A7" "DELETE"
    (Some "65AB000000000000000000A7").

End Sample.

Section Backend.

(** HMAC of the jsonwebtoken library, keyed by the signing secret. *)
Variable hmac : string → JwtPayload → string.
(** bcrypt, as used by the User model: hashing on save, and comparing a
    candidate with a stored hash. *)
Variable hashPassword : string → string.
Variable bcrypt_compare : string → string → bool.
(** The [fullName] virtual and the role → permissions table of the model. *)
Variable fullName : User → string.
Variable rolePermissions : string → list string.
(** [mongoose.Types.ObjectId.isValid] *)
Variable isValidObjectId : string → bool.
(** A document as [res.json] sends it, the listed paths left out by
    [.select('-path ...')]; the schema is in the missing models/User.js. *)
Variable documentJson : list string → User → Json.

(** Modelled from the spec: [comparePassword] of models/User.js, which is
    missing. The supplied password is checked against the stored hash. *)
Definition comparePassword (u : User) (candidate : string) : bool :=
  bcrypt_compare candidate (password u).

(** ** jsonwebtoken *)

Definition seconds (ms : Z) : Z := ms `div` 1000.

(** ['7d'] *)
Definition defaultExpiresIn : Z := 7 * 24 * 60 * 60.

Definition jwt_sign (uid : ObjectId) (secret : string) (expiresIn : Z) (now : Z) : Token :=
  let p := mkPayload uid (seconds now) (seconds now + expiresIn) in
  Jwt p (hmac secret p).

Definition jwt_verify (t : Token) (secret : string) (now : Z) : Outcome JwtPayload :=
  match t with
  | Opaque _ => Throw JsonWebTokenError
  | Jwt p sig =>
      if negb (bool_decide (sig = hmac secret p)) then Throw JsonWebTokenError
      else if bool_decide (exp p ≤ seconds now) then Throw TokenExpiredError
      else Return p
  end.

(** routes/auth.js, [generateToken] *)
Definition generateToken (env : Env) (uid : ObjectId) : Token :=
  jwt_sign uid (JWT_SECRET env) (default defaultExpiresIn (JWT_EXPIRES_IN env)) (now env).

(** ** server/middleware/auth.js *)

Definition select_without_password (u : User) : User := set_password "" u.

Definition falsy_token (t : option Token) : bool :=
  match t with
  | None => true
  | Some (Opaque s) => bool_decide (s = "")
  | Some (Jwt _ _) => false
  end.

(** [authHeader && authHeader.split(' ')[1]] *)
Definition bearerToken (req : Request) : option Token :=
  authorization req ≫= (λ parts, parts !! 1%nat).

Definition authenticateToken (env : Env) (req : Request) : Async Step :=
  tryCatch
    (let token := bearerToken req in
     if falsy_token token then
       mret (Send (mkResponse 401 (error_body "Access token required" "TOKEN_REQUIRED")))
     else
       decoded ← lift (jwt_verify (default (Opaque "") token) (JWT_SECRET env) (now env));
       db ← getDb;
       found ← lift (findById (userId decoded) db);
       match select_without_password <$> found with
       | None =>
           mret (Send (mkResponse 401
             (error_body "Invalid token - user not found" "INVALID_TOKEN")))
       | Some user =>
           if negb (isActive user) then
             mret (Send (mkResponse 401
               (error_body "Account is deactivated" "ACCOUNT_DEACTIVATED")))
           else if isLocked (now env) user then
             mret (Send (mkResponse 401
               (error_body "Account is temporarily locked" "ACCOUNT_LOCKED")))
           else mret (Next (with_user user req))
       end)
    (λ error,
       match error with
       | JsonWebTokenError =>
           mret (Send (mkResponse 401 (error_body "Invalid token" "INVALID_TOKEN")))
       | TokenExpiredError =>
           mret (Send (mkResponse 401 (error_body "Token expired" "TOKEN_EXPIRED")))
       | _ =>
           mret (Send (mkResponse 500 (error_body "Authentication failed" "AUTH_ERROR")))
       end).

Definition auth_required : Response :=
  mkResponse 401 (error_body "Authentication required" "AUTH_REQUIRED").

Definition unauthorized_access (env : Env) (req : Request) (u : User)
    (details : list (string * Json)) : LogData :=
  mkLogData (_id u) "UNAUTHORIZED_ACCESS" "System" (_id u)
    (JObj (details ++
           [("userRole", JStr (role u));
            ("endpoint", JStr (originalUrl req));
            ("method", JStr (method req))]))
    (ip req) (userAgent req) "HIGH" "FAILURE".

(** [requireRole(...roles)]: the audit promise is not awaited. *)
Definition requireRole (roles : list string) (env : Env) (req : Request) : Async Step :=
  match req_user req with
  | None => mret (Send auth_required)
  | Some u =>
      if negb (bool_decide (role u ∈ roles)) then
        detached (AuditLogModel.createLog (now env)
          (unauthorized_access env req u [("requiredRoles", JArr (JStr <$> roles))]));;
        mret (Send (mkResponse 403
          (JObj [("message", JStr "Insufficient permissions");
                 ("code", JStr "INSUFFICIENT_PERMISSIONS");
                 ("required", JArr (JStr <$> roles));
                 ("current", JStr (role u))])))
      else mret (Next req)
  end.

(** [requirePermission(permission)]: the audit promise is not awaited. *)
Definition requirePermission (permission : string) (env : Env) (req : Request) : Async Step :=
  match req_user req with
  | None => mret (Send auth_required)
  | Some u =>
      if negb (hasPermission rolePermissions u permission) then
        detached (AuditLogModel.createLog (now env)
          (unauthorized_access env req u [("requiredPermission", JStr permission)]));;
        mret (Send (mkResponse 403
          (JObj [("message", JStr "Insufficient permissions");
                 ("code", JStr "INSUFFICIENT_PERMISSIONS");
                 ("required", JStr permission);
                 ("role", JStr (role u))])))
      else mret (Next req)
  end.

(** What [requireOwnershipOrRole] did with the ownership comparison. *)
Inductive OwnerCheck :=
  | NotCompared
  | Compared (ownerId userId : string).

(** [requireOwnershipOrRole(resourceField, allowedRoles)], together with a
    trace of the owner comparison. Nothing in the body touches the
    database, and nothing in it can throw in this model. *)
Definition ownershipGuard (resourceField : string) (allowedRoles : list string)
    (req : Request) : Step * OwnerCheck :=
  match req_user req with
  | None => (Send auth_required, NotCompared)
  | Some u =>
      if bool_decide (role u ∈ allowedRoles) then (Next req, NotCompared)
      else
        let resourceId := params req !! "id" in
        if negb (truthy resourceId) then
          (Send (mkResponse 400 (error_body "Resource ID required" "RESOURCE_ID_REQUIRED")),
           NotCompared)
        else
          match resource req with
          | Some r =>
              if truthy (r !! resourceField) then
                let ownerId := default "" (r !! resourceField) in
                let userId := _id u in
                if negb (bool_decide (ownerId = userId)) then
                  (Send (mkResponse 403
                     (error_body "Access denied - not resource owner" "NOT_RESOURCE_OWNER")),
                   Compared ownerId userId)
                else (Next req, Compared ownerId userId)
              else (Next req, NotCompared)
          | None => (Next req, NotCompared)
          end
  end.

Definition requireOwnershipOrRole (resourceField : string) (allowedRoles : list string)
    (req : Request) : Async Step :=
  tryCatch
    (mret (fst (ownershipGuard resourceField allowedRoles req)))
    (λ _, mret (Send (mkResponse 500
       (error_body "Authorization check failed" "AUTH_CHECK_ERROR")))).

(** ** server/utils/email.js *)

Definition emailTemplates : list string :=
  ["welcome"; "passwordReset"; "passwordChanged"; "courseEnrollment"].

(** [sendEmail(to, template, data)]: rejects when the template is unknown or
    when the transport does. *)
Definition sendEmail (env : Env) (to template : string) : Async unit :=
  if negb (bool_decide (template ∈ emailTemplates)) then throw MailError
  else if mailDelivers env then mret ()
  else throw MailError.

(** ** server/routes/auth.js *)

Definition profile (u : User) : list (string * Json) :=
  [("id", JStr (_id u)); ("email", JStr (email u));
   ("firstName", JStr (firstName u)); ("lastName", JStr (lastName u));
   ("fullName", JStr (fullName u)); ("role", JStr (role u));
   ("isEmailVerified", JBool (isEmailVerified u));
   ("isActive", JBool (isActive u))].

(** [POST /register], after [authValidations.register]. *)
Definition register (env : Env) (req : Request)
    (email password firstName lastName : string) (role : option string)
    : Async Response :=
  tryCatch
    (let role := default "student" role in
     db ← getDb;
     match findByEmail email db with
     | Some _ =>
         mret (mkResponse 400
           (error_body "User already exists with this email" "USER_EXISTS"))
     | None =>
         let emailVerificationToken := randomHex env in
         let user := newUser (newObjectId env) email (hashPassword password)
                       firstName lastName role emailVerificationToken in
         insertUser user;;
         AuditLogModel.createLog (now env)
           (mkLogData (_id user) "REGISTER" "User" (_id user)
              (JObj [("email", JStr email); ("role", JStr role)])
              (ip req) (userAgent req) "LOW" "SUCCESS");;
         tryCatch (sendEmail env email "welcome") (λ _, mret ());;
         let token := generateToken env (_id user) in
         mret (mkResponse 201
           (JObj [("message", JStr
                    "User registered successfully. Please check your email for verification.");
                  ("token", JTok token);
                  ("user", JObj (profile user))]))
     end)
    (λ _, mret (mkResponse 500 (error_body "Registration failed" "REGISTRATION_ERROR"))).

Definition invalid_credentials : Response :=
  mkResponse 401 (error_body "Invalid email or password" "INVALID_CREDENTIALS").

Definition account_locked : Response :=
  mkResponse 423
    (error_body "Account is temporarily locked due to too many failed login attempts"
       "ACCOUNT_LOCKED").

(** [POST /login], after [authValidations.login]. *)
Definition login (env : Env) (req : Request) (email password : string)
    : Async Response :=
  tryCatch
    (db ← getDb;
     match findByEmail email db with
     | None => mret invalid_credentials
     | Some user =>
         if isLocked (now env) user then mret account_locked
         else if negb (isActive user) then
           mret (mkResponse 401 (error_body "Account is deactivated" "ACCOUNT_DEACTIVATED"))
         else if negb (comparePassword user password) then
           updateById (_id user) (incLoginAttempts (now env));;
           AuditLogModel.createLog (now env)
             (mkLogData (_id user) "LOGIN" "User" (_id user)
                (JObj [("email", JStr email); ("reason", JStr "Invalid password")])
                (ip req) (userAgent req) "MEDIUM" "FAILURE");;
           mret invalid_credentials
         else
           (if bool_decide (0 < loginAttempts user)
            then updateById (_id user) resetLoginAttempts
            else mret ());;
           let user := set_lastLogin (Some (now env)) user in
           updateById (_id user) (set_lastLogin (Some (now env)));;
           let token := generateToken env (_id user) in
           AuditLogModel.createLog (now env)
             (mkLogData (_id user) "LOGIN" "User" (_id user)
                (JObj [("email", JStr email)])
                (ip req) (userAgent req) "LOW" "SUCCESS");;
           mret (res_json
             (JObj [("message", JStr "Login successful");
                    ("token", JTok token);
                    ("user", JObj (profile user ++
                                   [("lastLogin", JOptNum (lastLogin user))]))]))
     end)
    (λ _, mret (mkResponse 500 (error_body "Login failed" "LOGIN_ERROR"))).

Definition reset_link_sent : Json :=
  JObj [("message",
         JStr "If an account with that email exists, we have sent a password reset link.")].

(** [POST /forgot-password], after [authValidations.forgotPassword]. *)
Definition forgotPassword (env : Env) (req : Request) (email : string)
    : Async Response :=
  tryCatch
    (db ← getDb;
     match findByEmail email db with
     | None => mret (res_json reset_link_sent)
     | Some user =>
         let resetToken := randomHex env in
         updateById (_id user)
           (set_passwordReset (Some resetToken) (Some (now env + 60 * 60 * 1000)));;
         sent ← tryCatch (sendEmail env email "passwordReset";; mret true)
                         (λ _, mret false);
         if negb sent then
           mret (mkResponse 500
             (error_body "Failed to send password reset email" "EMAIL_SEND_ERROR"))
         else
           AuditLogModel.createLog (now env)
             (mkLogData (_id user) "PASSWORD_RESET" "User" (_id user)
                (JObj [("email", JStr email); ("action", JStr "requested")])
                (ip req) (userAgent req) "MEDIUM" "SUCCESS");;
           mret (res_json reset_link_sent)
     end)
    (λ _, mret (mkResponse 500
       (error_body "Password reset request failed" "PASSWORD_RESET_ERROR"))).

(** The filter [{ passwordResetToken: token, passwordResetExpires: { $gt: now } }],
    [selects] being the condition the token puts on its path. *)
Definition resetFilter (selects : option string → bool) (now : Z) (u : User) : bool :=
  selects (passwordResetToken u)
  && match passwordResetExpires u with
     | Some e => bool_decide (now < e)
     | None => false
     end.

(** The same filter for a token that is a string. *)
Definition holdsResetToken (token : string) (now : Z) (u : User) : bool :=
  bool_decide (passwordResetToken u = Some token)
  && match passwordResetExpires u with
     | Some e => bool_decide (now < e)
     | None => false
     end.

Definition invalid_reset_token : Response :=
  mkResponse 400 (error_body "Invalid or expired reset token" "INVALID_TOKEN").

(** [POST /reset-password], after [authValidations.resetPassword]. *)
Definition resetPassword (env : Env) (req : Request) (token : BodyValue)
    (password : string) : Async Response :=
  tryCatch
    (db ← getDb;
     selects ← lift (castStringFilter token);
     match findOne (resetFilter selects (now env)) db with
     | None => mret invalid_reset_token
     | Some user =>
         updateById (_id user)
           (λ u, set_passwordReset None None (set_password (hashPassword password) u));;
         tryCatch (sendEmail env (email user) "passwordChanged") (λ _, mret ());;
         AuditLogModel.createLog (now env)
           (mkLogData (_id user) "PASSWORD_RESET" "User" (_id user)
              (JObj [("email", JStr (email user)); ("action", JStr "completed")])
              (ip req) (userAgent req) "MEDIUM" "SUCCESS");;
         mret (res_json (JObj [("message", JStr "Password reset successful")]))
     end)
    (λ _, mret (mkResponse 500
       (error_body "Password reset failed" "PASSWORD_RESET_ERROR"))).

(** ** server/middleware/validation.js, [userValidations.getUserById] *)

Definition getUserById_validation (req : Request) : Step :=
  let value := params req !! "id" in
  if isValidObjectId (default "" value) then Next req
  else Send (mkResponse 400
    (JObj [("message", JStr "Validation failed");
           ("errors", JArr [JObj [("field", JStr "id");
                                  ("message", JStr "Invalid ID format");
                                  ("value", JOpt value)]])])).

(** ** The users router *)

(** The handler of [DELETE /:id]. *)
Definition deleteUserHandler (env : Env) (req : Request) : Async Response :=
  tryCatch
    (let id := params req !! "id" in
     me ← from_option mret (throw TypeError) (req_user req);
     if bool_decide (id = Some (_id me)) then
       mret (mkResponse 400 (error_body "Cannot delete your own account" "CANNOT_DELETE_SELF"))
     else
       db ← getDb;
       found ← from_option (λ i, lift (findById i db)) (mret None) id;
       match found with
       | None => mret (mkResponse 404 (error_body "User not found" "USER_NOT_FOUND"))
       | Some user =>
           let user' :=
             set_email ("deleted_" +:+ pretty (now env) +:+ "_" +:+ email user)
               (set_isActive false user) in
           updateById (_id user)
             (λ u, set_email (email user') (set_isActive false u));;
           AuditLogModel.createLog (now env)
             (mkLogData (_id me) "USER_DELETE" "User" (default "" (id ≫= castObjectId))
                (JObj [("targetUser", JStr (email user'));
                       ("deletedBy", JStr (email me))])
                (ip req) (userAgent req) "HIGH" "SUCCESS");;
           mret (res_json (JObj [("message", JStr "User deleted successfully")]))
       end)
    (λ _, mret (mkResponse 500 (error_body "Failed to delete user" "DELETE_USER_ERROR"))).

(** Running a handler behind a middleware. *)
Definition andThen (m : Async Step) (k : Request → Async Response) : Async Response :=
  s ← m;
  match s with
  | Next req => k req
  | Send r => mret r
  end.

(** [router.delete('/:id', authenticateToken, requireRole('admin'),
    userValidations.getUserById, handler)] *)
Definition deleteUser (env : Env) (req : Request) : Async Response :=
  andThen (authenticateToken env req) (λ req,
  andThen (requireRole ["admin"] env req) (λ req,
  andThen (mret (getUserById_validation req)) (λ req,
  deleteUserHandler env req))).

(** ** server/middleware/auth.js, [optionalAuth] *)

Definition optionalAuth (env : Env) (req : Request) : Async Step :=
  tryCatch
    (let token := bearerToken req in
     if negb (falsy_token token) then
       decoded ← lift (jwt_verify (default (Opaque "") token) (JWT_SECRET env) (now env));
       db ← getDb;
       found ← lift (findById (userId decoded) db);
       match select_without_password <$> found with
       | Some user =>
           if isActive user && negb (isLocked (now env) user)
           then mret (Next (with_user user req))
           else mret (Next req)
       | None => mret (Next req)
       end
     else mret (Next req))
    (λ _, mret (Next req)).

(** ** server/routes/auth.js, the remaining routes *)

Definition set_verified (u : User) : User :=
  mkUser (_id u) (email u) (password u) (firstName u) (lastName u) (role u)
    (isActive u) true (loginAttempts u) (lockUntil u)
    (lastLogin u) None (passwordResetToken u) (passwordResetExpires u).

(** The handler of [POST /logout]. *)
Definition logoutHandler (env : Env) (req : Request) : Async Response :=
  tryCatch
    (me ← from_option mret (throw TypeError) (req_user req);
     AuditLogModel.createLog (now env)
       (mkLogData (_id me) "LOGOUT" "User" (_id me) (JObj [])
          (ip req) (userAgent req) "LOW" "SUCCESS");;
     mret (res_json (JObj [("message", JStr "Logout successful")])))
    (λ _, mret (mkResponse 500 (error_body "Logout failed" "LOGOUT_ERROR"))).

(** [router.post('/logout', authenticateToken, handler)] *)
Definition logout (env : Env) (req : Request) : Async Response :=
  andThen (authenticateToken env req) (logoutHandler env).

(** [POST /verify-email]; [token] is [req.body.token]. *)
Definition verifyEmail (env : Env) (req : Request) (token : BodyValue)
    : Async Response :=
  tryCatch
    (if negb (truthyValue token) then
       mret (mkResponse 400 (error_body "Verification token is required" "TOKEN_REQUIRED"))
     else
       db ← getDb;
       selects ← lift (castStringFilter token);
       match findOne (λ u, selects (emailVerificationToken u)) db with
       | None =>
           mret (mkResponse 400
             (error_body "Invalid or expired verification token" "INVALID_TOKEN"))
       | Some user =>
           let user := set_verified user in
           updateById (_id user) set_verified;;
           AuditLogModel.createLog (now env)
             (mkLogData (_id user) "EMAIL_VERIFY" "User" (_id user)
                (JObj [("email", JStr (email user))])
                (ip req) (userAgent req) "LOW" "SUCCESS");;
           mret (res_json
             (JObj [("message", JStr "Email verified successfully");
                    ("user", JObj (profile user))]))
       end)
    (λ _, mret (mkResponse 500
       (error_body "Email verification failed" "VERIFICATION_ERROR"))).

(** The handler of [POST /change-password], after
    [authValidations.changePassword]. *)
Definition changePasswordHandler (env : Env) (req : Request)
    (currentPassword password : string) : Async Response :=
  tryCatch
    (me ← from_option mret (throw TypeError) (req_user req);
     db ← getDb;
     user ← from_option mret (throw TypeError) (lookupId (_id me) db);
     if negb (comparePassword user currentPassword) then
       mret (mkResponse 400
         (error_body "Current password is incorrect" "INVALID_CURRENT_PASSWORD"))
     else
       updateById (_id user) (set_password (hashPassword password));;
       tryCatch (sendEmail env (email user) "passwordChanged") (λ _, mret ());;
       AuditLogModel.createLog (now env)
         (mkLogData (_id user) "PASSWORD_RESET" "User" (_id user)
            (JObj [("email", JStr (email user)); ("action", JStr "changed")])
            (ip req) (userAgent req) "MEDIUM" "SUCCESS");;
       mret (res_json (JObj [("message", JStr "Password changed successfully")])))
    (λ _, mret (mkResponse 500
       (error_body "Password change failed" "PASSWORD_CHANGE_ERROR"))).

(** [router.post('/change-password', authenticateToken, ..., handler)] *)
Definition changePassword (env : Env) (req : Request)
    (currentPassword password : string) : Async Response :=
  andThen (authenticateToken env req)
    (λ req, changePasswordHandler env req currentPassword password).

(** ** server/models/AuditLog.js, the activity queries *)

(** [.sort({ timestamp: -1 })]: newest first. *)
Definition newerFirst (a b : AuditLog) : Prop := al_timestamp b ≤ al_timestamp a.

#[global] Instance newerFirst_dec a b : Decision (newerFirst a b) :=
  decide (al_timestamp b ≤ al_timestamp a).

(** [.limit(n)]: zero means no limit, a negative number its absolute value. *)
Definition limitTo {A} (n : Z) (l : list A) : list A :=
  if bool_decide (n = 0) then l else take (Z.abs_nat n) l.

(** [.populate('user', fields)]: the actor's document, reduced to the
    selected fields, beside the event; [None] when the account is gone. *)
Definition populateUser (fields : User → list (string * Json)) (db : Db)
    (e : AuditLog) : AuditLog * option Json :=
  (e, (λ u, JObj (("_id", JStr (_id u)) :: fields u)) <$> lookupId (ld_user (al_data e)) db).

Definition nameAndEmail (u : User) : list (string * Json) :=
  [("firstName", JStr (firstName u)); ("lastName", JStr (lastName u));
   ("email", JStr (email u))].

(** [auditLogSchema.statics.getUserActivity(userId, limit = 50)] *)
Definition getUserActivity (userId : ObjectId) (limit : option Z) (db : Db)
    : list (AuditLog * option Json) :=
  populateUser nameAndEmail db
    <$> limitTo (default 50 limit)
          (merge_sort newerFirst
             (filter (λ e, ld_user (al_data e) = userId) (auditLogs db))).

(** The [filters] argument of [getSystemActivity]; the dates are already
    parsed to milliseconds. *)
Record ActivityFilters := mkFilters {
  f_action : option string;
  f_resource : option string;
  f_severity : option string;
  f_status : option string;
  f_startDate : option Z;
  f_endDate : option Z
}.

(** The query object built from the filters: one equality per truthy
    string, and a time range only when both dates are given. *)
Definition systemQuery (f : ActivityFilters) (e : AuditLog) : bool :=
  (if truthy (f_action f) then bool_decide (Some (ld_action (al_data e)) = f_action f) else true)
  && (if truthy (f_resource f) then bool_decide (Some (ld_resource (al_data e)) = f_resource f) else true)
  && (if truthy (f_severity f) then bool_decide (Some (ld_severity (al_data e)) = f_severity f) else true)
  && (if truthy (f_status f) then bool_decide (Some (ld_status (al_data e)) = f_status f) else true)
  && match f_startDate f, f_endDate f with
     | Some start, Some stop =>
         bool_decide (start ≤ al_timestamp e) && bool_decide (al_timestamp e ≤ stop)
     | _, _ => true
     end.

Definition nameEmailRole (u : User) : list (string * Json) :=
  nameAndEmail u ++ [("role", JStr (role u))].

(** [auditLogSchema.statics.getSystemActivity(filters = {}, limit = 100)] *)
Definition getSystemActivity (filters : ActivityFilters) (limit : option Z) (db : Db)
    : list (AuditLog * option Json) :=
  populateUser nameEmailRole db
    <$> limitTo (default 100 limit)
          (merge_sort newerFirst
             (filter (λ e, systemQuery filters e = true) (auditLogs db))).

(** ** The users router, reading *)

Definition access_denied : Response :=
  mkResponse 403 (error_body "Access denied" "ACCESS_DENIED").

(** The handler of [GET /:id]. *)
Definition getUserHandler (req : Request) : Async Response :=
  tryCatch
    (let id := params req !! "id" in
     me ← from_option mret (throw TypeError) (req_user req);
     if negb (bool_decide (role me = "admin")) && negb (bool_decide (Some (_id me) = id))
     then mret access_denied
     else
       db ← getDb;
       found ← from_option (λ i, lift (findById i db)) (mret None) id;
       match found with
       | None => mret (mkResponse 404 (error_body "User not found" "USER_NOT_FOUND"))
       | Some user =>
           mret (res_json
             (JObj [("user",
                     documentJson
                       ["password"; "emailVerificationToken"; "passwordResetToken"]
                       user)]))
       end)
    (λ _, mret (mkResponse 500 (error_body "Failed to retrieve user" "GET_USER_ERROR"))).

Definition eventJson (e : AuditLog * option Json) : Json :=
  JObj [("user", default JNull e.2);
        ("action", JStr (ld_action (al_data e.1)));
        ("resource", JStr (ld_resource (al_data e.1)));
        ("resourceId", JStr (ld_resourceId (al_data e.1)));
        ("details", ld_details (al_data e.1));
        ("ipAddress", JOpt (ld_ipAddress (al_data e.1)));
        ("userAgent", JOpt (ld_userAgent (al_data e.1)));
        ("timestamp", JNum (al_timestamp e.1));
        ("severity", JStr (ld_severity (al_data e.1)));
        ("status", JStr (ld_status (al_data e.1)))].

(** The handler of [GET /:id/activity]; [queryLimit] is
    [parseInt(req.query.limit)], [None] standing for NaN. *)
Definition getActivityHandler (req : Request) (queryLimit : option Z)
    : Async Response :=
  tryCatch
    (let id := params req !! "id" in
     let limit := match queryLimit with
                  | Some n => if bool_decide (n = 0) then 50 else n
                  | None => 50
                  end in
     me ← from_option mret (throw TypeError) (req_user req);
     if negb (bool_decide (role me = "admin")) && negb (bool_decide (Some (_id me) = id))
     then mret access_denied
     else
       db ← getDb;
       let activity := getUserActivity (default "" id) (Some limit) db in
       mret (res_json (JObj [("activity", JArr (eventJson <$> activity))])))
    (λ _, mret (mkResponse 500
       (error_body "Failed to retrieve user activity" "GET_ACTIVITY_ERROR"))).

(** ** Scenarios *)

(** One login request: its environment, the request, the password typed. *)
Definition Attempt : Type := Env * Request * string.

(** Consecutive login requests for one email, each on the database the
    previous one left. *)
Fixpoint loginSequence (tries : list Attempt) (email : string) (db : Db)
    : list (Outcome Response) * Db :=
  match tries with
  | [] => ([], db)
  | (env, req, pw) :: rest =>
      let r := login env req email pw db in
      let rs := loginSequence rest email (snd r) in
      (fst r :: fst rs, snd rs)
  end.

(** The attempt is made while [u] is not locked, with a password that does
    not match the one stored for [u]. *)
Definition rejected (u : User) (a : Attempt) : Prop :=
  isLocked (now a.1.1) u = false ∧ comparePassword u a.2 = false.

(** An account holds [token] as a reset token whose expiry is after [now]. *)
Definition holdsUnexpired (token : string) (now : Z) (u : User) : Prop :=
  passwordResetToken u = Some token
  ∧ ∃ e, passwordResetExpires u = Some e ∧ now < e.

(** At most one account holds [token] as its reset token. *)
Definition heldByOneAccount (token : string) (db : Db) : Prop :=
  ∀ x y, x ∈ users db → y ∈ users db →
    passwordResetToken x = Some token → passwordResetToken y = Some token →
    _id x = _id y.

(** ** Reading a result *)

Definition response {A} (r : Outcome A * Db) : Outcome A := fst r.
Definition database {A} (r : Outcome A * Db) : Db := snd r.

(** The audit events of [db'] that were appended after [db]. *)
Definition newAuditEvents (db db' : Db) : list AuditLog :=
  drop (length (auditLogs db)) (auditLogs db').

Definition isDenial (e : AuditLog) : bool :=
  bool_decide (ld_action (al_data e) = "UNAUTHORIZED_ACCESS")
  && bool_decide (ld_severity (al_data e) = "HIGH")
  && bool_decide (ld_status (al_data e) = "FAILURE").

(** ** Expected responses, events and documents *)

Definition forbidden_role (roles : list string) (u : User) : Response :=
  mkResponse 403
    (JObj [("message", JStr "Insufficient permissions");
           ("code", JStr "INSUFFICIENT_PERMISSIONS");
           ("required", JArr (JStr <$> roles));
           ("current", JStr (role u))]).

Definition failedLoginEvent (env : Env) (req : Request) (email : string) (u : User)
    : AuditLog :=
  mkAuditLog
    (mkLogData (_id u) "LOGIN" "User" (_id u)
       (JObj [("email", JStr email); ("reason", JStr "Invalid password")])
       (ip req) (userAgent req) "MEDIUM" "FAILURE")
    (now env).

Definition resetEvent (env : Env) (req : Request) (u : User) : AuditLog :=
  mkAuditLog
    (mkLogData (_id u) "PASSWORD_RESET" "User" (_id u)
       (JObj [("email", JStr (email u)); ("action", JStr "completed")])
       (ip req) (userAgent req) "MEDIUM" "SUCCESS")
    (now env).

Definition clearReset (passwordHash : string) (u : User) : User :=
  set_passwordReset None None (set_password passwordHash u).

Definition registered (env : Env) (u : User) : Response :=
  mkResponse 201
    (JObj [("message", JStr
             "User registered successfully. Please check your email for verification.");
           ("token", JTok (generateToken env (_id u)));
           ("user", JObj (profile u))]).

Definition placeholder (env : Env) (target : User) : string :=
  "deleted_" +:+ pretty (now env) +:+ "_" +:+ email target.

Definition softDeleted (env : Env) (target : User) (u : User) : User :=
  set_email (placeholder env target) (set_isActive false u).

Definition token_required : Response :=
  mkResponse 401 (error_body "Access token required" "TOKEN_REQUIRED").

Definition auth_error : Response :=
  mkResponse 500 (error_body "Authentication failed" "AUTH_ERROR").

Definition invalid_token : Response :=
  mkResponse 401 (error_body "Invalid token" "INVALID_TOKEN").

(** A successful login: the event, the stored account, the answer. *)
Definition loginEvent (env : Env) (req : Request) (mail : string) (u : User)
    : AuditLog :=
  mkAuditLog
    (mkLogData (_id u) "LOGIN" "User" (_id u) (JObj [("email", JStr mail)])
       (ip req) (userAgent req) "LOW" "SUCCESS")
    (now env).

Definition loggedIn (env : Env) (u : User) : User :=
  set_lastLogin (Some (now env))
    (if bool_decide (0 < loginAttempts u) then resetLoginAttempts u else u).

Definition login_ok (env : Env) (u : User) : Response :=
  res_json
    (JObj [("message", JStr "Login successful");
           ("token", JTok (generateToken env (_id u)));
           ("user", JObj (profile (set_lastLogin (Some (now env)) u)
                          ++ [("lastLogin", JNum (now env))]))]).

Definition user_exists : Response :=
  mkResponse 400 (error_body "User already exists with this email" "USER_EXISTS").

Definition logoutEvent (env : Env) (req : Request) (u : User) : AuditLog :=
  mkAuditLog
    (mkLogData (_id u) "LOGOUT" "User" (_id u) (JObj [])
       (ip req) (userAgent req) "LOW" "SUCCESS")
    (now env).

Definition verifyEvent (env : Env) (req : Request) (u : User) : AuditLog :=
  mkAuditLog
    (mkLogData (_id u) "EMAIL_VERIFY" "User" (_id u)
       (JObj [("email", JStr (email u))])
       (ip req) (userAgent req) "LOW" "SUCCESS")
    (now env).

Definition changeEvent (env : Env) (req : Request) (u : User) : AuditLog :=
  mkAuditLog
    (mkLogData (_id u) "PASSWORD_RESET" "User" (_id u)
       (JObj [("email", JStr (email u)); ("action", JStr "changed")])
       (ip req) (userAgent req) "MEDIUM" "SUCCESS")
    (now env).

Definition requestEvent (env : Env) (req : Request) (mail : string) (u : User)
    : AuditLog :=
  mkAuditLog
    (mkLogData (_id u) "PASSWORD_RESET" "User" (_id u)
       (JObj [("email", JStr mail); ("action", JStr "requested")])
       (ip req) (userAgent req) "MEDIUM" "SUCCESS")
    (now env).

(** The reset token and expiry that [forgotPassword] stores. *)
Definition withResetToken (env : Env) (u : User) : User :=
  set_passwordReset (Some (randomHex env)) (Some (now env + 60 * 60 * 1000)) u.

(** At most one account holds [token] as its verification token. *)
Definition verifiedByOneAccount (token : string) (db : Db) : Prop :=
  ∀ x y, x ∈ users db → y ∈ users db →
    emailVerificationToken x = Some token → emailVerificationToken y = Some token →
    _id x = _id y.

(** No two documents of the collection share an id. *)
Definition uniqueIds (db : Db) : Prop := NoDup (_id <$> users db).

(** What a successful login for [u] writes on a document with [u]'s id. *)
Definition loginUpdate (env : Env) (u x : User) : User :=
  set_lastLogin (Some (now env))
    (if bool_decide (0 < loginAttempts u) then resetLoginAttempts x else x).

Definition invalid_verification_token : Response :=
  mkResponse 400 (error_body "Invalid or expired verification token" "INVALID_TOKEN").

Definition verified_ok (u : User) : Response :=
  res_json
    (JObj [("message", JStr "Email verified successfully");
           ("user", JObj (profile (set_verified u)))]).

Definition email_send_error : Response :=
  mkResponse 500 (error_body "Failed to send password reset email" "EMAIL_SEND_ERROR").

Definition reset_ok : Response :=
  res_json (JObj [("message", JStr "Password reset successful")]).

Definition invalid_current_password : Response :=
  mkResponse 400 (error_body "Current password is incorrect" "INVALID_CURRENT_PASSWORD").

Definition password_changed : Response :=
  res_json (JObj [("message", JStr "Password changed successfully")]).

Definition logged_out : Response :=
  res_json (JObj [("message", JStr "Logout successful")]).

(** [db'] keeps what [db] holds: the audit trail of [db] is a prefix of the
    one of [db'], and so is the sequence of account ids. *)
Definition grows (db db' : Db) : Prop :=
  auditLogs db `prefix_of` auditLogs db'
  ∧ (_id <$> users db) `prefix_of` (_id <$> users db').

(** A computation that only ever grows the database. *)
Definition Monotone {A} (m : Async A) : Prop := ∀ db, grows db (snd (m db)).

Definition user_not_found : Response :=
  mkResponse 404 (error_body "User not found" "USER_NOT_FOUND").

Definition account_deactivated : Response :=
  mkResponse 401 (error_body "Account is deactivated" "ACCOUNT_DEACTIVATED").


(** A request with a session token that verifies for the active, unlocked
    account [me]. *)
Definition authenticatedAs (env : Env) (req : Request) (db : Db) (me : User) : Prop :=
  ∃ tok p,
    bearerToken req = Some tok
    ∧ jwt_verify tok (JWT_SECRET env) (now env) = Return p
    ∧ findById (userId p) db = Return (Some me)
    ∧ isActive me = true ∧ isLocked (now env) me = false.

(** ** AuditLog model *)

Lemma UNAUTHORIZED_ACCESS_not_in_enum :
  "UNAUTHORIZED_ACCESS" ∉ AuditLogModel.action_enum.
Proof. apply (bool_decide_unpack (_ ∉ _)). vm_compute. exact I. Qed.

Lemma unauthorized_access_rejected env req u details :
  AuditLogModel.validate (unauthorized_access env req u details)
  = Some (ValidationError "action").
Proof. reflexivity. Qed.

Lemma createLog_rejected now d e db :
  AuditLogModel.validate d = Some e →
  AuditLogModel.createLog now d db = (Throw e, db).
Proof. intros H. unfold AuditLogModel.createLog. by rewrite H. Qed.

Lemma createLog_accepted now d db :
  AuditLogModel.validate d = None →
  AuditLogModel.createLog now d db
  = (Return (mkAuditLog d now), mkDb (users db) (auditLogs db ++ [mkAuditLog d now])).
Proof. intros H. unfold AuditLogModel.createLog. by rewrite H. Qed.

(** ** Collection queries *)

Lemma findOne_nil P logs : findOne P (mkDb [] logs) = None.
Proof. reflexivity. Qed.

Lemma findOne_cons P u l logs :
  findOne P (mkDb (u :: l) logs)
  = if P u then Some u else findOne P (mkDb l logs).
Proof.
  unfold findOne; cbn [users list_find].
  case_decide as HP.
  - by rewrite HP.
  - apply not_true_is_false in HP. rewrite HP.
    destruct (list_find _ l) as [[i x]|]; reflexivity.
Qed.

Lemma findOne_Some P db u :
  findOne P db = Some u → u ∈ users db ∧ P u = true.
Proof.
  destruct db as [l logs]. cbn [users].
  induction l as [|x l IH]; [done|].
  rewrite findOne_cons. destruct (P x) eqn:HP.
  - intros [= ->]. split; [left | done].
  - intros H. destruct (IH H). split; [by right | done].
Qed.

Lemma findOne_None P db :
  findOne P db = None ↔ ∀ x, x ∈ users db → P x = false.
Proof.
  destruct db as [l logs]. cbn [users].
  induction l as [|x l IH].
  - split; [intros _ y Hy; inversion Hy | done].
  - rewrite findOne_cons. destruct (P x) eqn:HP.
    + split; [done|]. intros H. specialize (H x (list_elem_of_here _ _)). congruence.
    + rewrite IH. split.
      * intros H y Hy. inversion Hy; subst; auto.
      * intros H y Hy. apply H. by right.
Qed.

Lemma updateById_spec id f db :
  updateById id f db
  = (Return (),
     mkDb ((λ u, if bool_decide (_id u = id) then f u else u) <$> users db)
       (auditLogs db)).
Proof. reflexivity. Qed.

(** An update that does not change what the filter looks at returns the
    updated document to the same query. *)
Lemma findOne_updateById P f db u :
  findOne P db = Some u → (∀ x, P (f x) = P x) →
  findOne P (database (updateById (_id u) f db)) = Some (f u).
Proof.
  intros Hfind Hf. destruct db as [l logs].
  unfold database; cbn [updateById snd users auditLogs].
  induction l as [|x l IH]; [done|].
  rewrite findOne_cons in Hfind. rewrite fmap_cons, findOne_cons.
  destruct (P x) eqn:HP.
  - injection Hfind as ->. rewrite bool_decide_true by done.
    by rewrite Hf, HP.
  - case_bool_decide; rewrite ?Hf, HP; by apply IH.
Qed.

(** An update that falsifies the filter on the only documents satisfying it
    leaves the query without a match. *)
Lemma findOne_updateById_None P id f db :
  (∀ x, x ∈ users db → P x = true → _id x = id) → (∀ x, P (f x) = false) →
  findOne P (database (updateById id f db)) = None.
Proof.
  intros Honly Hf. apply findOne_None. intros y.
  unfold database; cbn [updateById snd users].
  intros (x & -> & Hx)%list_elem_of_fmap.
  case_bool_decide as Hid; [apply Hf|].
  destruct (P x) eqn:HP; [|done]. destruct Hid. by apply Honly.
Qed.

Lemma updateById_ids id f db :
  (∀ x, _id (f x) = _id x) →
  _id <$> users (database (updateById id f db)) = _id <$> users db.
Proof.
  intros Hf. unfold database; cbn [updateById snd users].
  rewrite <- list_fmap_compose. apply list_fmap_ext. intros i x _. cbn.
  case_bool_decide; [apply Hf | done].
Qed.

Lemma updateById_other id f db x :
  x ∈ users db → _id x ≠ id → x ∈ users (database (updateById id f db)).
Proof.
  intros Hx Hne. unfold database; cbn [updateById snd users].
  apply list_elem_of_fmap. exists x. by rewrite bool_decide_false.
Qed.

Lemma updateById_auditLogs id f db :
  auditLogs (database (updateById id f db)) = auditLogs db.
Proof. reflexivity. Qed.

Lemma findOne_users P db1 db2 :
  users db1 = users db2 → findOne P db1 = findOne P db2.
Proof. unfold findOne. by intros ->. Qed.

(** ** Looking up by id *)

Lemma findById_Return id db o :
  findById id db = Return o →
  ∃ oid, castObjectId id = Some oid ∧ lookupId oid db = o.
Proof.
  unfold findById. destruct (castObjectId id) as [oid|]; [|done].
  intros [= <-]. eauto.
Qed.

Lemma findById_Some id db u :
  findById id db = Return (Some u) →
  castObjectId id = Some (_id u) ∧ lookupId (_id u) db = Some u ∧ u ∈ users db.
Proof.
  intros (oid & Hcast & Hfind)%findById_Return.
  pose proof (findOne_Some _ _ _ Hfind) as [Hin Hid%bool_decide_eq_true].
  subst oid. done.
Qed.

Lemma findById_cast id oid db :
  castObjectId id = Some oid → findById id db = Return (lookupId oid db).
Proof. intros H. unfold findById. by rewrite H. Qed.

Lemma findById_Throw id db e :
  findById id db = Throw e → castObjectId id = None ∧ e = CastError.
Proof.
  unfold findById. destruct (castObjectId id); [done|]. by intros [= <-].
Qed.

Lemma findById_users id db1 db2 :
  users db1 = users db2 → findById id db1 = findById id db2.
Proof.
  intros H. unfold findById, lookupId.
  destruct (castObjectId id) as [oid|]; [|done].
  f_equal. by apply findOne_users.
Qed.

Lemma findById_updateById id f db u :
  findById id db = Return (Some u) → (∀ x, _id (f x) = _id x) →
  findById id (database (updateById (_id u) f db)) = Return (Some (f u)).
Proof.
  intros (Hcast & Hfind & _)%findById_Some Hf.
  rewrite (findById_cast _ _ _ Hcast). f_equal.
  apply (findOne_updateById _ f db u Hfind).
  intros x. by rewrite Hf.
Qed.

(** ** Authorization guards *)

Lemma requireRole_allowed roles env req u db :
  req_user req = Some u → role u ∈ roles →
  requireRole roles env req db = (Return (Next req), db).
Proof.
  intros Hu Hin. unfold requireRole. rewrite Hu.
  by rewrite bool_decide_true.
Qed.

(** A role denial answers 403 and leaves the database, audit collection
    included, as it was: the audit document fails validation. *)
Lemma requireRole_denied roles env req u db :
  req_user req = Some u → role u ∉ roles →
  requireRole roles env req db = (Return (Send (forbidden_role roles u)), db).
Proof.
  intros Hu Hnot. unfold requireRole. rewrite Hu.
  rewrite bool_decide_false by done. cbn [negb].
  unfold mbind, Async_bind, detached.
  by rewrite (createLog_rejected _ _ _ _ (unauthorized_access_rejected _ _ _ _)).
Qed.

Lemma requirePermission_denied permission env req u db :
  req_user req = Some u → hasPermission rolePermissions u permission = false →
  database (requirePermission permission env req db) = db
  ∧ ∃ r, response (requirePermission permission env req db) = Return (Send r)
         ∧ status r = 403.
Proof.
  intros Hu Hnot. unfold requirePermission. rewrite Hu, Hnot. cbn [negb].
  unfold mbind, Async_bind, detached.
  rewrite (createLog_rejected _ _ _ _ (unauthorized_access_rejected _ _ _ _)).
  split; [done | eauto].
Qed.

(** The ownership guard compares owner and requester only on a request that
    carries the resource with a truthy owner field. *)
Lemma ownershipGuard_compared resourceField allowedRoles req o uid :
  snd (ownershipGuard resourceField allowedRoles req) = Compared o uid →
  ∃ r u, resource req = Some r ∧ r !! resourceField = Some o ∧ o ≠ ""
         ∧ req_user req = Some u ∧ uid = _id u.
Proof.
  unfold ownershipGuard.
  destruct (req_user req) as [u|]; [|done].
  case_bool_decide; [done|].
  destruct (truthy (params req !! "id")); [|done]. cbn [negb].
  destruct (resource req) as [r|]; [|done].
  destruct (r !! resourceField) as [o'|] eqn:Hf; cbn [truthy default]; [|done].
  case_bool_decide as Hempty; cbn [negb]; [done|].
  case_bool_decide; cbn [negb snd]; intros [= <- <-]; eauto 10.
Qed.

(** The guard's own 403 is sent after a comparison, never without one. *)
Lemma ownershipGuard_denial resourceField allowedRoles req r :
  fst (ownershipGuard resourceField allowedRoles req) = Send r → status r = 403 →
  ∃ o uid, snd (ownershipGuard resourceField allowedRoles req) = Compared o uid
           ∧ o ≠ uid.
Proof.
  unfold ownershipGuard.
  destruct (req_user req) as [u|]; [|by intros [= <-]].
  case_bool_decide; [done|].
  destruct (truthy (params req !! "id")); cbn [negb]; [|by intros [= <-]].
  destruct (resource req) as [res|]; [|done].
  destruct (truthy (res !! resourceField)); [|done].
  case_bool_decide; cbn [negb fst snd]; [done|]. eauto.
Qed.

(** C10: a requester whose role is not among the allowed roles, on a route
    with an id parameter and with no resource attached to the request, is
    let through by the ownership guard without any owner comparison; the
    comparison, and with it the NOT_RESOURCE_OWNER denial, happens only on
    requests to which the resource was attached. *)
Theorem ownership_guard_skips_check_without_resource
    resourceField allowedRoles req u id db :
  (req_user req = Some u → role u ∉ allowedRoles →
   params req !! "id" = Some id → id ≠ "" → resource req = None →
   requireOwnershipOrRole resourceField allowedRoles req db = (Return (Next req), db)
   ∧ snd (ownershipGuard resourceField allowedRoles req) = NotCompared)
  ∧ (∀ o uid, snd (ownershipGuard resourceField allowedRoles req) = Compared o uid →
       is_Some (resource req))
  ∧ (∀ r, fst (ownershipGuard resourceField allowedRoles req) = Send r →
       status r = 403 → is_Some (resource req)).
Proof.
  split; [|split].
  - intros Hu Hrole Hid Hne Hres.
    unfold requireOwnershipOrRole, ownershipGuard, tryCatch.
    rewrite Hu, Hid, Hres. rewrite bool_decide_false by done.
    cbn [truthy]. rewrite bool_decide_false by done. done.
  - intros o uid Hc.
    destruct (ownershipGuard_compared _ _ _ _ _ Hc) as (r & ? & -> & _). eauto.
  - intros r Hr H403.
    destruct (ownershipGuard_denial _ _ _ _ Hr H403) as (o & uid & Hc & _).
    destruct (ownershipGuard_compared _ _ _ _ _ Hc) as (res & ? & -> & _). eauto.
Qed.

(** ** Login *)

Lemma login_no_account env req email pw db :
  findByEmail email db = None →
  login env req email pw db = (Return invalid_credentials, db).
Proof. intros H. unfold login. run. by rewrite H. Qed.

Lemma login_locked env req email pw db u :
  findByEmail email db = Some u → isLocked (now env) u = true →
  login env req email pw db = (Return account_locked, db).
Proof. intros H HL. unfold login. run. by rewrite H, HL. Qed.

Lemma login_deactivated env req email pw db u :
  findByEmail email db = Some u → isLocked (now env) u = false →
  isActive u = false →
  response (login env req email pw db)
  = Return (mkResponse 401 (error_body "Account is deactivated" "ACCOUNT_DEACTIVATED")).
Proof. intros H HL HA. unfold login. run. by rewrite H, HL, HA. Qed.

Lemma login_wrong_password env req email pw db u :
  findByEmail email db = Some u → isLocked (now env) u = false →
  isActive u = true → comparePassword u pw = false →
  login env req email pw db
  = (Return invalid_credentials,
     mkDb (users (database (updateById (_id u) (incLoginAttempts (now env)) db)))
          (auditLogs db ++ [failedLoginEvent env req email u])).
Proof.
  intros H HL HA HP. unfold login. run. rewrite H, HL, HA, HP. cbn [negb].
  rewrite updateById_spec. rewrite createLog_accepted by reflexivity. done.
Qed.

Lemma findByEmail_after_failure env req email pw db u :
  findByEmail email db = Some u → isLocked (now env) u = false →
  isActive u = true → comparePassword u pw = false →
  findByEmail email (database (login env req email pw db))
  = Some (incLoginAttempts (now env) u).
Proof.
  intros H HL HA HP. rewrite (login_wrong_password _ _ _ _ _ _ H HL HA HP).
  exact (findOne_updateById _ (incLoginAttempts (now env)) db u H (λ _, eq_refl)).
Qed.

Lemma loginSequence_app t1 t2 mail db :
  loginSequence (t1 ++ t2) mail db
  = (fst (loginSequence t1 mail db)
       ++ fst (loginSequence t2 mail (snd (loginSequence t1 mail db))),
     snd (loginSequence t2 mail (snd (loginSequence t1 mail db)))).
Proof.
  revert db. induction t1 as [|[[env req] pw] t1 IH]; intros db.
  - cbn. by destruct (loginSequence t2 mail db).
  - cbn [app loginSequence fst snd]. by rewrite IH.
Qed.

Lemma rejected_ext u u' a :
  lockUntil u' = lockUntil u → password u' = password u →
  rejected u a → rejected u' a.
Proof.
  unfold rejected, isLocked, comparePassword. by intros -> ->.
Qed.

(** Failures below the threshold only count up. *)
Lemma loginSequence_below_threshold tries mail db u :
  findByEmail mail db = Some u → isActive u = true →
  loginAttempts u + Z.of_nat (length tries) < maxLoginAttempts →
  Forall (rejected u) tries →
  fst (loginSequence tries mail db)
    = replicate (length tries) (Return invalid_credentials)
  ∧ findByEmail mail (snd (loginSequence tries mail db))
    = Some (set_login_state (loginAttempts u + Z.of_nat (length tries))
              (lockUntil u) u).
Proof.
  revert db u. induction tries as [|[[env req] pw] tries IH]; intros db u Hfind Hact Hlt Hrej.
  - cbn. split; [done|]. rewrite Hfind. f_equal.
    destruct u; unfold set_login_state; cbn. f_equal. lia.
  - apply Forall_cons in Hrej as [[HL HP] Hrej]. cbn in HL, HP.
    cbn [loginSequence fst snd length replicate].
    rewrite length_cons in Hlt.
    pose proof (findByEmail_after_failure env req mail pw db u Hfind HL Hact HP) as Hnext.
    unfold database in Hnext.
    destruct (IH _ _ Hnext) as [Hrs Hdb].
    + done.
    + unfold incLoginAttempts, set_login_state; cbn. lia.
    + eapply Forall_impl; [exact Hrej|]. intros a.
      apply rejected_ext; [|done].
      unfold incLoginAttempts, set_login_state; cbn [lockUntil].
      by rewrite bool_decide_false by (unfold maxLoginAttempts in *; lia).
    + split.
      * rewrite Hrs. f_equal.
        by rewrite (login_wrong_password _ _ _ _ _ _ Hfind HL Hact HP).
      * rewrite Hdb. f_equal.
        unfold incLoginAttempts, set_login_state; cbn.
        rewrite bool_decide_false by (unfold maxLoginAttempts in *; lia).
        f_equal. lia.
Qed.

(** C3: a login for an account whose lockout-until is in the future answers
    ACCOUNT_LOCKED whatever the password, the database untouched; and five
    consecutive failed logins of an active account with no failure on
    record answer INVALID_CREDENTIALS five times and leave a lockout-until
    later than the fifth attempt, during which every login, also with the
    right password, answers ACCOUNT_LOCKED. *)
Theorem lockout_is_checked_before_password :
  (∀ env req mail pw db u,
     findByEmail mail db = Some u → isLocked (now env) u = true →
     login env req mail pw db = (Return account_locked, db))
  ∧ (∀ tries fifth mail db u,
       findByEmail mail db = Some u → isActive u = true →
       loginAttempts u = 0 → length tries = 4%nat →
       Forall (rejected u) (tries ++ [fifth]) →
       let run := loginSequence (tries ++ [fifth]) mail db in
       let lockedUntil := now fifth.1.1 + lockoutDuration in
       fst run = replicate 5 (Return invalid_credentials)
       ∧ now fifth.1.1 < lockedUntil
       ∧ (∃ u5, findByEmail mail (snd run) = Some u5
                ∧ lockUntil u5 = Some lockedUntil)
       ∧ (∀ env req pw, now env < lockedUntil →
            login env req mail pw (snd run) = (Return account_locked, snd run))).
Proof.
  split; [exact login_locked|].
  intros tries [[env5 req5] pw5] mail db u Hfind Hact H0 Hlen Hrej run lockedUntil.
  apply Forall_app in Hrej as [Hrej [H5L H5P]%Forall_singleton].
  cbn in H5L, H5P.
  destruct (loginSequence_below_threshold tries mail db u Hfind Hact) as [Hrs Hdb];
    [rewrite H0, Hlen; unfold maxLoginAttempts; lia | done |].
  rewrite H0, Hlen in Hdb. rewrite Hlen in Hrs.
  set (u4 := set_login_state (0 + Z.of_nat 4) (lockUntil u) u) in Hdb.
  assert (Hfifth : findByEmail mail (snd run) = Some (incLoginAttempts (now env5) u4)).
  { subst run. rewrite loginSequence_app. cbn [snd loginSequence].
    apply (findByEmail_after_failure env5 req5 mail pw5 _ u4 Hdb); done. }
  assert (Hlock : lockUntil (incLoginAttempts (now env5) u4) = Some lockedUntil).
  { unfold incLoginAttempts, u4, set_login_state; cbn [lockUntil loginAttempts].
    by rewrite bool_decide_true by (unfold maxLoginAttempts; lia). }
  split; [|split; [|split]].
  - subst run. rewrite loginSequence_app. cbn [fst]. rewrite Hrs.
    cbn [loginSequence fst snd].
    by rewrite (login_wrong_password _ _ _ _ _ _ Hdb H5L Hact H5P).
  - subst lockedUntil. unfold lockoutDuration. lia.
  - eauto.
  - intros env req pw Hnow. apply (login_locked _ _ _ _ _ _ Hfifth).
    unfold isLocked. rewrite Hlock. by rewrite bool_decide_true.
Qed.

(** ** Token service and [authenticateToken] *)

Lemma jwt_verify_Return_truthy tok secret t p :
  jwt_verify tok secret t = Return p → falsy_token (Some tok) = false.
Proof. by destruct tok. Qed.

Lemma jwt_verify_expired_truthy tok secret t :
  jwt_verify tok secret t = Throw TokenExpiredError → falsy_token (Some tok) = false.
Proof. by destruct tok. Qed.

Lemma generateToken_payload env uid :
  ∃ p, generateToken env uid = Jwt p (hmac (JWT_SECRET env) p)
       ∧ userId p = uid
       ∧ iat p = seconds (now env)
       ∧ exp p = seconds (now env) + default defaultExpiresIn (JWT_EXPIRES_IN env).
Proof. unfold generateToken, jwt_sign. eauto. Qed.

Lemma authenticateToken_expired env req tok db :
  bearerToken req = Some tok →
  jwt_verify tok (JWT_SECRET env) (now env) = Throw TokenExpiredError →
  authenticateToken env req db
  = (Return (Send (mkResponse 401 (error_body "Token expired" "TOKEN_EXPIRED"))), db).
Proof.
  intros Htok Hv. unfold authenticateToken. rewrite Htok.
  rewrite (jwt_verify_expired_truthy _ _ _ Hv). run. cbn [from_option id]. by rewrite Hv.
Qed.

(** What the middleware does once the token verifies and its account is
    found. *)
Lemma authenticateToken_verified env req tok p db u :
  bearerToken req = Some tok →
  jwt_verify tok (JWT_SECRET env) (now env) = Return p →
  findById (userId p) db = Return (Some u) →
  authenticateToken env req db
  = (Return
       (if negb (isActive u) then
          Send (mkResponse 401 (error_body "Account is deactivated" "ACCOUNT_DEACTIVATED"))
        else if isLocked (now env) u then
          Send (mkResponse 401 (error_body "Account is temporarily locked" "ACCOUNT_LOCKED"))
        else Next (with_user (select_without_password u) req)),
     db).
Proof.
  intros Htok Hv Hu. unfold authenticateToken. rewrite Htok.
  rewrite (jwt_verify_Return_truthy _ _ _ _ Hv). run. cbn [from_option id].
  rewrite Hv, Hu. cbn [fmap option_fmap option_map].
  change (isActive (select_without_password u)) with (isActive u).
  change (isLocked (now env) (select_without_password u)) with (isLocked (now env) u).
  destruct (isActive u), (isLocked (now env) u); reflexivity.
Qed.

(** C7: a token issued for an account id verifies to a payload with that id
    while the clock, in seconds, is before the issue time plus the
    configured lifetime; from then on verification throws TokenExpiredError
    and the middleware answers 401 TOKEN_EXPIRED. Before the expiry the
    middleware puts the account that id names on the request when the
    account is active and not locked. *)
Theorem token_round_trip env uid later :
  JWT_SECRET later = JWT_SECRET env →
  let token := generateToken env uid in
  let expiry := seconds (now env) + default defaultExpiresIn (JWT_EXPIRES_IN env) in
  (seconds (now later) < expiry →
     (∃ p, jwt_verify token (JWT_SECRET later) (now later) = Return p ∧ userId p = uid)
     ∧ (∀ req db u,
          bearerToken req = Some token → findById uid db = Return (Some u) →
          isActive u = true → isLocked (now later) u = false →
          authenticateToken later req db
            = (Return (Next (with_user (select_without_password u) req)), db)
          ∧ castObjectId uid = Some (_id u)))
  ∧ (expiry ≤ seconds (now later) →
     jwt_verify token (JWT_SECRET later) (now later) = Throw TokenExpiredError
     ∧ (∀ req db,
          bearerToken req = Some token →
          authenticateToken later req db
            = (Return (Send (mkResponse 401 (error_body "Token expired" "TOKEN_EXPIRED"))),
               db))).
Proof.
  intros Hsecret token expiry.
  assert (Hfresh : seconds (now later) < expiry →
            jwt_verify token (JWT_SECRET later) (now later)
            = Return (mkPayload uid (seconds (now env)) expiry)).
  { intros Hlt. subst token. unfold generateToken, jwt_sign, jwt_verify.
    rewrite Hsecret. rewrite bool_decide_true by done. cbn [negb exp].
    by rewrite bool_decide_false by (subst expiry; lia). }
  assert (Hstale : expiry ≤ seconds (now later) →
            jwt_verify token (JWT_SECRET later) (now later) = Throw TokenExpiredError).
  { intros Hge. subst token. unfold generateToken, jwt_sign, jwt_verify.
    rewrite Hsecret. rewrite bool_decide_true by done. cbn [negb exp].
    by rewrite bool_decide_true by (subst expiry; lia). }
  split.
  - intros Hlt. split; [eexists; split; [by apply Hfresh | done]|].
    intros req db u Htok Hu Hact Hlock.
    rewrite (authenticateToken_verified _ _ _ _ _ u Htok (Hfresh Hlt)) by exact Hu.
    rewrite Hact, Hlock. split; [done|].
    by apply findById_Some in Hu as [Hcast _].
  - intros Hge. split; [by apply Hstale|].
    intros req db Htok. apply (authenticateToken_expired _ _ _ _ Htok). by apply Hstale.
Qed.

(** C2 (as the code has it): a login for a locked account is answered with
    status 423 and code ACCOUNT_LOCKED; a bearer-token request whose token
    verifies and whose account is locked is answered with status 401, with
    code ACCOUNT_LOCKED when the account is active. *)
Theorem locked_account_status env req db u :
  isLocked (now env) u = true →
  (∀ mail pw,
     findByEmail mail db = Some u →
     ∃ r, login env req mail pw db = (Return r, db) ∧ status r = 423
          ∧ body r = error_body
              "Account is temporarily locked due to too many failed login attempts"
              "ACCOUNT_LOCKED")
  ∧ (∀ tok p,
       bearerToken req = Some tok →
       jwt_verify tok (JWT_SECRET env) (now env) = Return p →
       findById (userId p) db = Return (Some u) →
       ∃ r, authenticateToken env req db = (Return (Send r), db) ∧ status r = 401
            ∧ (isActive u = true →
               body r = error_body "Account is temporarily locked" "ACCOUNT_LOCKED")).
Proof.
  intros Hlock. split.
  - intros mail pw Hu. exists account_locked.
    by rewrite (login_locked _ _ _ _ _ _ Hu Hlock).
  - intros tok p Htok Hv Hu.
    rewrite (authenticateToken_verified _ _ _ _ _ _ Htok Hv Hu), Hlock.
    destruct (isActive u); cbn [negb]; eexists; (split; [reflexivity|]); by split.
Qed.

(** C5 (as the code has it): a login for an unknown email and a login with a
    wrong password for an existing account that is active and not locked
    get the same answer: 401, the same message, code INVALID_CREDENTIALS. *)
Theorem login_failures_indistinguishable
    env1 req1 mail1 pw1 env2 req2 mail2 pw2 db u :
  findByEmail mail1 db = None →
  findByEmail mail2 db = Some u →
  isLocked (now env2) u = false → isActive u = true →
  comparePassword u pw2 = false →
  response (login env1 req1 mail1 pw1 db) = response (login env2 req2 mail2 pw2 db)
  ∧ response (login env2 req2 mail2 pw2 db)
    = Return (mkResponse 401 (error_body "Invalid email or password" "INVALID_CREDENTIALS")).
Proof.
  intros Hnone Hu HL HA HP.
  rewrite (login_no_account _ _ _ _ _ Hnone).
  by rewrite (login_wrong_password _ _ _ _ _ _ Hu HL HA HP).
Qed.

(** ** Password reset *)

Lemma holdsResetToken_true token t u :
  holdsResetToken token t u = true ↔ holdsUnexpired token t u.
Proof.
  unfold holdsResetToken, holdsUnexpired. rewrite andb_true_iff, bool_decide_eq_true.
  split; intros [Htok Hexp]; (split; [done|]).
  - destruct (passwordResetExpires u) as [e|]; [|done].
    exists e. by apply bool_decide_eq_true in Hexp.
  - destruct Hexp as (e & -> & Hlt). by apply bool_decide_eq_true.
Qed.

Lemma resetFilter_string token :
  resetFilter (λ field, bool_decide (field = Some token)) = holdsResetToken token.
Proof. reflexivity. Qed.

Lemma resetPassword_no_match env req token selects pw db :
  castStringFilter token = Return selects →
  findOne (resetFilter selects (now env)) db = None →
  resetPassword env req token pw db = (Return invalid_reset_token, db).
Proof. intros Hc H. unfold resetPassword. run. rewrite Hc. by rewrite H. Qed.

Lemma resetPassword_uncastable env req token e pw db :
  castStringFilter token = Throw e →
  resetPassword env req token pw db
  = (Return (mkResponse 500 (error_body "Password reset failed" "PASSWORD_RESET_ERROR")),
     db).
Proof. intros Hc. unfold resetPassword. run. by rewrite Hc. Qed.

Lemma sendEmail_swallowed env to template db :
  tryCatch (sendEmail env to template) (λ _, mret ()) db = (Return (), db).
Proof.
  unfold sendEmail. run.
  destruct (negb _); [done|]. by destruct (mailDelivers env).
Qed.

Lemma resetPassword_match env req token selects pw db u :
  castStringFilter token = Return selects →
  findOne (resetFilter selects (now env)) db = Some u →
  resetPassword env req token pw db
  = (Return (res_json (JObj [("message", JStr "Password reset successful")])),
     mkDb (users (database (updateById (_id u) (clearReset (hashPassword pw)) db)))
          (auditLogs db ++ [resetEvent env req u])).
Proof.
  intros Hc H. unfold resetPassword.
  unfold tryCatch at 1. unfold mbind at 1, Async_bind at 1, getDb.
  unfold mbind at 1, Async_bind at 1, lift. rewrite Hc.
  rewrite H. unfold mbind at 1, Async_bind at 1. rewrite updateById_spec.
  unfold mbind at 1, Async_bind at 1. rewrite sendEmail_swallowed.
  unfold mbind at 1, Async_bind at 1.
  rewrite createLog_accepted by reflexivity. done.
Qed.

(** When the token of the request is a string: a reset with a token that
    no account holds with an unexpired expiry answers INVALID_TOKEN and
    changes nothing. A reset with a token that an account holds unexpired
    succeeds and clears token and expiry on that account; when no second
    account holds the same token, every later reset with that string
    answers INVALID_TOKEN. *)
Lemma reset_with_string_token env req token pw db :
  ((∀ x, x ∈ users db → ¬ holdsUnexpired token (now env) x) →
   resetPassword env req (BStr token) pw db = (Return invalid_reset_token, db))
  ∧ ((∃ x, x ∈ users db ∧ holdsUnexpired token (now env) x) →
     ∃ u db1,
       u ∈ users db ∧ holdsUnexpired token (now env) u
       ∧ resetPassword env req (BStr token) pw db
         = (Return (res_json (JObj [("message", JStr "Password reset successful")])), db1)
       ∧ users db1
         = (λ x, if bool_decide (_id x = _id u)
                 then clearReset (hashPassword pw) x else x) <$> users db
       ∧ passwordResetToken (clearReset (hashPassword pw) u) = None
       ∧ passwordResetExpires (clearReset (hashPassword pw) u) = None
       ∧ (heldByOneAccount token db →
          ∀ env2 req2 pw2,
            resetPassword env2 req2 (BStr token) pw2 db1
            = (Return invalid_reset_token, db1))).
Proof.
  split.
  - intros Hnone. apply (resetPassword_no_match _ _ (BStr token) _ _ _ eq_refl), findOne_None.
    rewrite resetFilter_string.
    intros x Hx. apply not_true_is_false. rewrite holdsResetToken_true. by apply Hnone.
  - intros (x & Hx & Hholds).
    destruct (findOne (holdsResetToken token (now env)) db) as [u|] eqn:Hfind.
    2:{ rewrite findOne_None in Hfind. apply holdsResetToken_true in Hholds.
        specialize (Hfind x Hx). congruence. }
    pose proof (findOne_Some _ _ _ Hfind) as [Hu Hut%holdsResetToken_true].
    eexists u, _. split; [done|]. split; [done|].
    split; [by apply (resetPassword_match _ _ (BStr token) _ _ _ u eq_refl)|].
    split; [reflexivity|]. split; [reflexivity|]. split; [reflexivity|].
    intros Honce env2 req2 pw2. apply (resetPassword_no_match _ _ (BStr token) _ _ _ eq_refl).
    rewrite resetFilter_string.
    apply (findOne_updateById_None _ (_id u) (clearReset (hashPassword pw)) db).
    + intros y Hy [Hy1 _]%holdsResetToken_true.
      apply (Honce y u Hy Hu Hy1). by destruct Hut.
    + intros y. reflexivity.
Qed.

(** C4, on the code: the route hands the token of the request body to the
    filter as it came, and the validator only asks that it be not empty. A
    token that is an object of query operators equals no stored token, yet
    the reset succeeds on the first account whose stored token satisfies
    the operators and whose expiry has not passed: that account's password
    hash is replaced, where the answer should be INVALID_TOKEN. *)
Theorem reset_with_operator_token env req selects pw db x :
  x ∈ users db → selects (passwordResetToken x) = true →
  (∃ e, passwordResetExpires x = Some e ∧ now env < e) →
  (∀ y s, passwordResetToken y = Some s → BOperators selects ≠ BStr s)
  ∧ ∃ u db1,
      u ∈ users db ∧ selects (passwordResetToken u) = true
      ∧ resetPassword env req (BOperators selects) pw db
        = (Return (res_json (JObj [("message", JStr "Password reset successful")])), db1)
      ∧ response (resetPassword env req (BOperators selects) pw db)
        ≠ Return invalid_reset_token
      ∧ users db1
        = (λ y, if bool_decide (_id y = _id u)
                then clearReset (hashPassword pw) y else y) <$> users db
      ∧ password (clearReset (hashPassword pw) u) = hashPassword pw.
Proof.
  intros Hx Hsel (e & He & Hlt). split; [done|].
  destruct (findOne (resetFilter selects (now env)) db) as [u|] eqn:Hfind.
  2:{ rewrite findOne_None in Hfind. specialize (Hfind x Hx).
      unfold resetFilter in Hfind. rewrite Hsel, He in Hfind.
      by rewrite bool_decide_true in Hfind. }
  pose proof (findOne_Some _ _ _ Hfind) as [Hu [Hut _]%andb_true_iff].
  exists u. eexists. split; [done|]. split; [done|].
  rewrite (resetPassword_match _ _ (BOperators selects) _ _ _ u eq_refl Hfind).
  split; [reflexivity|]. split; [done|]. split; reflexivity.
Qed.

(** ** Forgotten password and registration *)

Lemma forgotPassword_no_account env req mail db :
  findByEmail mail db = None →
  forgotPassword env req mail db = (Return (res_json reset_link_sent), db).
Proof. intros H. unfold forgotPassword. run. by rewrite H. Qed.

Lemma sendEmail_known env to template :
  template ∈ emailTemplates →
  sendEmail env to template
  = if mailDelivers env then mret () else throw MailError.
Proof. intros H. unfold sendEmail. by rewrite bool_decide_true. Qed.

Lemma passwordReset_template : "passwordReset" ∈ emailTemplates.
Proof. apply (bool_decide_unpack _). vm_compute. exact I. Qed.

Lemma forgotPassword_sent env req mail db u :
  findByEmail mail db = Some u → mailDelivers env = true →
  response (forgotPassword env req mail db) = Return (res_json reset_link_sent).
Proof.
  intros H Hmail. unfold forgotPassword.
  rewrite (sendEmail_known _ _ _ passwordReset_template), Hmail.
  run. rewrite H. rewrite updateById_spec. cbn [negb].
  rewrite createLog_accepted by reflexivity. done.
Qed.

Lemma forgotPassword_mail_failure env req mail db u :
  findByEmail mail db = Some u → mailDelivers env = false →
  response (forgotPassword env req mail db)
  = Return (mkResponse 500
      (error_body "Failed to send password reset email" "EMAIL_SEND_ERROR")).
Proof.
  intros H Hmail. unfold forgotPassword.
  rewrite (sendEmail_known _ _ _ passwordReset_template), Hmail.
  run. rewrite H. rewrite updateById_spec. done.
Qed.

(** C6: a forgot-password request for an email with no account and one for
    an email with an account, the reset email going out, get the same
    answer: status 200 and the same one-message body. *)
Theorem forgotPassword_same_response env1 req1 mail1 env2 req2 mail2 db u :
  findByEmail mail1 db = None →
  findByEmail mail2 db = Some u →
  mailDelivers env2 = true →
  response (forgotPassword env1 req1 mail1 db)
  = response (forgotPassword env2 req2 mail2 db)
  ∧ response (forgotPassword env2 req2 mail2 db) = Return (res_json reset_link_sent).
Proof.
  intros Hnone Hu Hmail.
  rewrite (forgotPassword_no_account _ _ _ _ Hnone).
  by rewrite (forgotPassword_sent _ _ _ _ _ Hu Hmail).
Qed.

Lemma register_new_account env req mail pw first last r db :
  findByEmail mail db = None →
  let user := newUser (newObjectId env) mail (hashPassword pw) first last
                (default "student" r) (randomHex env) in
  ∃ event,
    register env req mail pw first last r db
    = (Return (registered env user),
       mkDb (users db ++ [user]) (auditLogs db ++ [event])).
Proof.
  intros H user. unfold register.
  unfold tryCatch at 1. unfold mbind at 1, Async_bind at 1, getDb.
  rewrite H. unfold mbind at 1, Async_bind at 1, insertUser.
  unfold mbind at 1, Async_bind at 1.
  rewrite createLog_accepted by reflexivity.
  unfold mbind at 1, Async_bind at 1. rewrite sendEmail_swallowed. eauto.
Qed.

(** C8: with the mail transport failing, a registration for a new email
    still answers 201 with a session token and the profile of the account
    it stored, while a forgot-password request for an existing account
    answers 500 EMAIL_SEND_ERROR, not the generic success message. *)
Theorem mail_failure_register_vs_forgotPassword env :
  mailDelivers env = false →
  (∀ req mail pw first last r db,
     findByEmail mail db = None →
     ∃ user db',
       register env req mail pw first last r db
       = (Return (mkResponse 201
            (JObj [("message", JStr
                     "User registered successfully. Please check your email for verification.");
                   ("token", JTok (generateToken env (_id user)));
                   ("user", JObj (profile user))])),
          db')
       ∧ users db' = users db ++ [user]
       ∧ email user = mail ∧ isActive user = true ∧ isEmailVerified user = false)
  ∧ (∀ req mail db u,
       findByEmail mail db = Some u →
       response (forgotPassword env req mail db)
       = Return (mkResponse 500
           (error_body "Failed to send password reset email" "EMAIL_SEND_ERROR"))
       ∧ response (forgotPassword env req mail db) ≠ Return (res_json reset_link_sent)).
Proof.
  intros Hmail. split.
  - intros req mail pw first last r db Hnone.
    destruct (register_new_account env req mail pw first last r db Hnone) as [event ->].
    eexists _, _. split; [reflexivity|]. done.
  - intros req mail db u Hu.
    rewrite (forgotPassword_mail_failure _ _ _ _ _ Hu Hmail). by split.
Qed.

(** ** Soft delete *)

Lemma andThen_Next m k req db db1 :
  m db = (Return (Next req), db1) → andThen m k db = k req db1.
Proof. intros H. unfold andThen. run. by rewrite H. Qed.

Lemma deleteUserHandler_self env req me db :
  req_user req = Some me → params req !! "id" = Some (_id me) →
  deleteUserHandler env req db
  = (Return (mkResponse 400
       (error_body "Cannot delete your own account" "CANNOT_DELETE_SELF")), db).
Proof.
  intros Hme Hid. unfold deleteUserHandler. run. rewrite Hme, Hid.
  cbn [from_option]. by rewrite bool_decide_true.
Qed.

Lemma deleteUserHandler_other env req me id target db :
  req_user req = Some me → params req !! "id" = Some id → id ≠ _id me →
  findById id db = Return (Some target) →
  ∃ event,
    deleteUserHandler env req db
    = (Return (res_json (JObj [("message", JStr "User deleted successfully")])),
       mkDb ((λ u, if bool_decide (_id u = _id target) then softDeleted env target u else u)
               <$> users db)
            (auditLogs db ++ [event])).
Proof.
  intros Hme Hid Hne Htarget.
  unfold deleteUserHandler.
  unfold tryCatch at 1. rewrite Hme, Hid. cbn [from_option].
  unfold mbind at 1, Async_bind at 1, mret at 1, Async_ret at 1.
  rewrite bool_decide_false by congruence.
  unfold mbind at 1, Async_bind at 1, getDb.
  unfold mbind at 1, Async_bind at 1, lift. rewrite Htarget.
  unfold mbind at 1, Async_bind at 1. rewrite updateById_spec.
  unfold mbind at 1, Async_bind at 1.
  rewrite createLog_accepted by reflexivity.
  eauto.
Qed.

(** DELETE /users/:id by an authenticated admin. When the parameter is
    the string the admin's own id prints as, the answer is 400 and the
    database is left exactly as it was. When it is any other string and
    the lookup finds an account under it, that account's flag becomes
    inactive and its email the placeholder; the collection keeps every
    document: same length, same ids, documents with other ids unchanged. *)
Lemma deleteUser_soft env req tok p me id db :
  bearerToken req = Some tok →
  jwt_verify tok (JWT_SECRET env) (now env) = Return p →
  findById (userId p) db = Return (Some me) →
  isActive me = true → isLocked (now env) me = false → role me = "admin" →
  params req !! "id" = Some id → isValidObjectId id = true →
  (id = _id me →
   deleteUser env req db
   = (Return (mkResponse 400
        (error_body "Cannot delete your own account" "CANNOT_DELETE_SELF")), db))
  ∧ (id ≠ _id me → ∀ target, findById id db = Return (Some target) →
     ∃ db',
       deleteUser env req db
       = (Return (res_json (JObj [("message", JStr "User deleted successfully")])), db')
       ∧ users db'
         = (λ u, if bool_decide (_id u = _id target) then softDeleted env target u else u)
             <$> users db
       ∧ findById id db' = Return (Some (softDeleted env target target))
       ∧ isActive (softDeleted env target target) = false
       ∧ email (softDeleted env target target)
         = "deleted_" +:+ pretty (now env) +:+ "_" +:+ email target
       ∧ length (users db') = length (users db)
       ∧ _id <$> users db' = _id <$> users db
       ∧ (∀ x, x ∈ users db → _id x ≠ _id target → x ∈ users db')).
Proof.
  intros Htok Hv Hme Hact Hlock Hrole Hid Hvalid.
  set (req1 := with_user (select_without_password me) req).
  assert (Hpipe : deleteUser env req db = deleteUserHandler env req1 db).
  { unfold deleteUser.
    rewrite (andThen_Next _ _ req1 db db).
    2:{ rewrite (authenticateToken_verified _ _ _ _ _ _ Htok Hv Hme).
        by rewrite Hact, Hlock. }
    rewrite (andThen_Next _ _ req1 db db).
    2:{ apply (requireRole_allowed _ _ _ (select_without_password me)); [done|].
        cbn [role select_without_password set_password]. rewrite Hrole. left. }
    rewrite (andThen_Next _ _ req1 db db); [done|].
    unfold getUserById_validation. cbn [params req1 with_user].
    rewrite Hid. cbn [from_option Datatypes.id]. by rewrite Hvalid. }
  rewrite Hpipe. split.
  - intros ->. by apply (deleteUserHandler_self _ _ (select_without_password me)).
  - intros Hne target Htarget.
    destruct (deleteUserHandler_other env req1 (select_without_password me)
                id target db eq_refl Hid Hne Htarget) as [event ->].
    eexists. split; [reflexivity|]. cbn [users].
    split; [reflexivity|].
    split.
    { rewrite <- (findById_updateById id (softDeleted env target) db target Htarget
                    (λ _, eq_refl)).
      by apply findById_users. }
    split; [reflexivity|]. split; [reflexivity|].
    split; [by rewrite length_fmap|].
    split.
    { rewrite <- list_fmap_compose. apply list_fmap_ext. intros i x _. cbn.
      by case_bool_decide. }
    intros x Hx Hxid. apply list_elem_of_fmap. exists x.
    by rewrite bool_decide_false.
Qed.

(** C9, on the code: the guard against self-deletion compares the
    parameter with the string the admin's id prints as, while the lookup
    casts the parameter first. An admin who sends their own id in another
    spelling that casts to it (upper-case hex digits) passes the guard, and
    the handler deactivates the admin's own account and rewrites its email:
    the answer is 200, not 400, and the account does not remain active. *)
Theorem admin_deletes_self_by_other_spelling env req tok p me id db :
  bearerToken req = Some tok →
  jwt_verify tok (JWT_SECRET env) (now env) = Return p →
  findById (userId p) db = Return (Some me) →
  isActive me = true → isLocked (now env) me = false → role me = "admin" →
  params req !! "id" = Some id → isValidObjectId id = true →
  id ≠ _id me → castObjectId id = Some (_id me) →
  ∃ db',
    deleteUser env req db
    = (Return (res_json (JObj [("message", JStr "User deleted successfully")])), db')
    ∧ status (res_json (JObj [("message", JStr "User deleted successfully")])) = 200
    ∧ findById (userId p) db' = Return (Some (softDeleted env me me))
    ∧ isActive (softDeleted env me me) = false
    ∧ email (softDeleted env me me)
      = "deleted_" +:+ pretty (now env) +:+ "_" +:+ email me
    ∧ (∀ env2 req2,
         bearerToken req2 = Some tok →
         jwt_verify tok (JWT_SECRET env2) (now env2) = Return p →
         authenticateToken env2 req2 db' = (Return (Send account_deactivated), db')).
Proof.
  intros Htok Hv Hme Hact Hlock Hrole Hid Hvalid Hne Hcast.
  pose proof (findById_Some _ _ _ Hme) as (_ & Hlookup & _).
  assert (Htarget : findById id db = Return (Some me)).
  { rewrite (findById_cast _ _ _ Hcast). by rewrite Hlookup. }
  destruct (proj2 (deleteUser_soft env req tok p me id db
                     Htok Hv Hme Hact Hlock Hrole Hid Hvalid) Hne me Htarget)
    as (db' & Hrun & Husers & _).
  assert (Hfind : findById (userId p) db' = Return (Some (softDeleted env me me))).
  { rewrite <- (findById_updateById (userId p) (softDeleted env me) db me Hme
                  (λ _, eq_refl)).
    by apply findById_users. }
  exists db'. split; [exact Hrun|]. split; [reflexivity|]. split; [exact Hfind|].
  split; [reflexivity|]. split; [reflexivity|].
  intros env2 req2 Htok2 Hv2.
  by rewrite (authenticateToken_verified _ _ _ _ _ _ Htok2 Hv2 Hfind).
Qed.

(** ** More on the middleware *)

Lemma authenticateToken_no_token env req db :
  falsy_token (bearerToken req) = true →
  authenticateToken env req db = (Return (Send token_required), db).
Proof. intros H. unfold authenticateToken. by rewrite H. Qed.

Lemma authenticateToken_throws env req tok e db :
  bearerToken req = Some tok → falsy_token (Some tok) = false →
  jwt_verify tok (JWT_SECRET env) (now env) = Throw e →
  authenticateToken env req db
  = (Return (Send match e with
                  | JsonWebTokenError => invalid_token
                  | TokenExpiredError =>
                      mkResponse 401 (error_body "Token expired" "TOKEN_EXPIRED")
                  | _ => mkResponse 500 (error_body "Authentication failed" "AUTH_ERROR")
                  end), db).
Proof.
  intros Htok Hf Hv. unfold authenticateToken. rewrite Htok, Hf. run.
  cbn [from_option id]. rewrite Hv. by destruct e.
Qed.

Lemma authenticateToken_unknown_account env req tok p db :
  bearerToken req = Some tok →
  jwt_verify tok (JWT_SECRET env) (now env) = Return p →
  findById (userId p) db = Return None →
  authenticateToken env req db
  = (Return (Send (mkResponse 401
       (error_body "Invalid token - user not found" "INVALID_TOKEN"))), db).
Proof.
  intros Htok Hv Hu. unfold authenticateToken. rewrite Htok.
  rewrite (jwt_verify_Return_truthy _ _ _ _ Hv). run. cbn [from_option id].
  by rewrite Hv, Hu.
Qed.

Lemma authenticateToken_lookup_throws env req tok p e db :
  bearerToken req = Some tok →
  jwt_verify tok (JWT_SECRET env) (now env) = Return p →
  findById (userId p) db = Throw e →
  authenticateToken env req db = (Return (Send auth_error), db).
Proof.
  intros Htok Hv Hu. unfold authenticateToken. rewrite Htok.
  rewrite (jwt_verify_Return_truthy _ _ _ _ Hv). run. cbn [from_option id].
  rewrite Hv, Hu. by apply findById_Throw in Hu as [_ ->].
Qed.

Lemma jwt_verify_throws tok secret t e :
  jwt_verify tok secret t = Throw e → e = JsonWebTokenError ∨ e = TokenExpiredError.
Proof.
  destruct tok as [s|p sig]; cbn [jwt_verify]; [intros [= <-]; by left|].
  destruct (negb _); [intros [= <-]; by left|].
  case_bool_decide; [intros [= <-]; by right | done].
Qed.

(** X1: the token middleware never throws and never writes; when it hands
    the request on, the request carries an account of the collection, found
    under the id of a token that verified, active and not locked, with the
    password hash removed. Every answer of its own is a 401, but for the
    500 AUTH_ERROR it gives when the token verified and the lookup itself
    failed on an id that is no ObjectId. *)
Theorem authenticateToken_sound env req db :
  ∃ step,
    authenticateToken env req db = (Return step, db)
    ∧ (∀ req', step = Next req' →
       ∃ tok p u,
         bearerToken req = Some tok
         ∧ jwt_verify tok (JWT_SECRET env) (now env) = Return p
         ∧ findById (userId p) db = Return (Some u)
         ∧ isActive u = true ∧ isLocked (now env) u = false
         ∧ req' = with_user (select_without_password u) req)
    ∧ (∀ r, step = Send r →
       status r = 401
       ∨ (r = auth_error
          ∧ ∃ tok p,
              bearerToken req = Some tok
              ∧ jwt_verify tok (JWT_SECRET env) (now env) = Return p
              ∧ findById (userId p) db = Throw CastError)).
Proof.
  destruct (falsy_token (bearerToken req)) eqn:Hf.
  { rewrite (authenticateToken_no_token _ _ _ Hf). eexists. split; [done|].
    split; [done|]. intros r [= <-]. by left. }
  destruct (bearerToken req) as [tok|] eqn:Htok; [|done].
  destruct (jwt_verify tok (JWT_SECRET env) (now env)) as [p|e] eqn:Hv.
  - destruct (findById (userId p) db) as [[u|]|e] eqn:Hu.
    + rewrite (authenticateToken_verified _ _ _ _ _ _ Htok Hv Hu).
      eexists. split; [done|].
      destruct (isActive u) eqn:Ha, (isLocked (now env) u) eqn:Hl; cbn [negb];
        (split; [|intros r [= <-]; by left]); try done.
      intros req' [= <-]. eauto 10.
    + rewrite (authenticateToken_unknown_account _ _ _ _ _ Htok Hv Hu).
      eexists. split; [done|]. split; [done|]. intros r [= <-]. by left.
    + rewrite (authenticateToken_lookup_throws _ _ _ _ _ _ Htok Hv Hu).
      eexists. split; [done|]. split; [done|]. intros r [= <-]. right.
      split; [done|]. apply findById_Throw in Hu as Hu'. destruct Hu' as [_ ->].
      eauto.
  - rewrite (authenticateToken_throws _ _ _ _ _ Htok Hf Hv).
    eexists. split; [done|]. split; [done|].
    destruct (jwt_verify_throws _ _ _ _ Hv) as [-> | ->]; intros r [= <-]; by left.
Qed.

(** X2: a request without a bearer token, or with an empty one, is answered
    401 TOKEN_REQUIRED; a token that is not a JWT, or whose signature is not
    the HMAC of its payload under the server's secret, is answered 401
    INVALID_TOKEN whatever its payload and expiry say; a well-signed,
    unexpired token is answered 401 INVALID_TOKEN when the lookup of its id
    finds no account, and 500 AUTH_ERROR when its id is no ObjectId and the
    lookup throws. *)
Theorem authenticateToken_rejects env req db :
  (falsy_token (bearerToken req) = true →
   authenticateToken env req db = (Return (Send token_required), db))
  ∧ (∀ s, s ≠ "" → bearerToken req = Some (Opaque s) →
     authenticateToken env req db = (Return (Send invalid_token), db))
  ∧ (∀ p sig, sig ≠ hmac (JWT_SECRET env) p → bearerToken req = Some (Jwt p sig) →
     authenticateToken env req db = (Return (Send invalid_token), db))
  ∧ (∀ p, bearerToken req = Some (Jwt p (hmac (JWT_SECRET env) p)) →
     seconds (now env) < exp p → findById (userId p) db = Return None →
     authenticateToken env req db
     = (Return (Send (mkResponse 401
          (error_body "Invalid token - user not found" "INVALID_TOKEN"))), db))
  ∧ (∀ p, bearerToken req = Some (Jwt p (hmac (JWT_SECRET env) p)) →
     seconds (now env) < exp p → findById (userId p) db = Throw CastError →
     authenticateToken env req db = (Return (Send auth_error), db)).
Proof.
  split; [apply authenticateToken_no_token|]. split; [|split; [|split]].
  - intros s Hs Htok.
    apply (authenticateToken_throws _ _ _ JsonWebTokenError _ Htok); [|done].
    cbn [falsy_token]. by rewrite bool_decide_false.
  - intros p sig Hsig Htok.
    apply (authenticateToken_throws _ _ _ JsonWebTokenError _ Htok); [done|].
    cbn [jwt_verify]. by rewrite bool_decide_false.
  - intros p Htok Hexp Hnone.
    apply (authenticateToken_unknown_account _ _ _ p _ Htok); [|done].
    cbn [jwt_verify]. rewrite bool_decide_true by done. cbn [negb].
    by rewrite bool_decide_false by lia.
  - intros p Htok Hexp Hcast.
    apply (authenticateToken_lookup_throws _ _ _ p CastError _ Htok).
    + cbn [jwt_verify]. rewrite bool_decide_true by done. cbn [negb].
      by rewrite bool_decide_false by lia.
    + exact Hcast.
Qed.

Lemma optionalAuth_no_token env req db :
  falsy_token (bearerToken req) = true →
  optionalAuth env req db = (Return (Next req), db).
Proof. intros H. unfold optionalAuth. by rewrite H. Qed.

Lemma optionalAuth_lookup_throws env req tok p e db :
  bearerToken req = Some tok →
  jwt_verify tok (JWT_SECRET env) (now env) = Return p →
  findById (userId p) db = Throw e →
  optionalAuth env req db = (Return (Next req), db).
Proof.
  intros Htok Hv Hu. unfold optionalAuth. rewrite Htok.
  rewrite (jwt_verify_Return_truthy _ _ _ _ Hv). run. cbn [from_option id negb].
  by rewrite Hv, Hu.
Qed.

Lemma optionalAuth_throws env req tok e db :
  bearerToken req = Some tok →
  jwt_verify tok (JWT_SECRET env) (now env) = Throw e →
  optionalAuth env req db = (Return (Next req), db).
Proof.
  intros Htok Hv. unfold optionalAuth. rewrite Htok.
  destruct (falsy_token (Some tok)); [done|]. run. cbn [from_option id].
  by rewrite Hv.
Qed.

Lemma optionalAuth_verified env req tok p found db :
  bearerToken req = Some tok →
  jwt_verify tok (JWT_SECRET env) (now env) = Return p →
  findById (userId p) db = Return found →
  optionalAuth env req db
  = (Return (Next match found with
                  | Some u =>
                      if isActive u && negb (isLocked (now env) u)
                      then with_user (select_without_password u) req
                      else req
                  | None => req
                  end), db).
Proof.
  intros Htok Hv Hu. unfold optionalAuth. rewrite Htok.
  rewrite (jwt_verify_Return_truthy _ _ _ _ Hv). run. cbn [from_option id negb].
  rewrite Hv, Hu. destruct found as [u|]; [|done].
  cbn [fmap option_fmap option_map].
  change (isActive (select_without_password u)) with (isActive u).
  change (isLocked (now env) (select_without_password u)) with (isLocked (now env) u).
  by destruct (isActive u), (isLocked (now env) u).
Qed.

(** X3: the optional token middleware lets every request through, without
    throwing or writing. It hands on exactly the request the strict
    middleware would hand on when that one accepts, and the request as it
    came when that one answers with an error. *)
Theorem optionalAuth_never_rejects env req db :
  (∃ req', optionalAuth env req db = (Return (Next req'), db))
  ∧ (∀ req', authenticateToken env req db = (Return (Next req'), db) →
       optionalAuth env req db = (Return (Next req'), db))
  ∧ (∀ r, authenticateToken env req db = (Return (Send r), db) →
       optionalAuth env req db = (Return (Next req), db)).
Proof.
  destruct (falsy_token (bearerToken req)) eqn:Hf.
  { rewrite (optionalAuth_no_token _ _ _ Hf), (authenticateToken_no_token _ _ _ Hf).
    split; [eauto|]. by split. }
  destruct (bearerToken req) as [tok|] eqn:Htok; [|done].
  destruct (jwt_verify tok (JWT_SECRET env) (now env)) as [p|e] eqn:Hv.
  - destruct (findById (userId p) db) as [[u|]|e] eqn:Hu.
    + rewrite (optionalAuth_verified _ _ _ _ _ _ Htok Hv Hu).
      rewrite (authenticateToken_verified _ _ _ _ _ _ Htok Hv Hu).
      destruct (isActive u), (isLocked (now env) u); cbn [negb andb];
        (split; [eauto|]); split; congruence.
    + rewrite (optionalAuth_verified _ _ _ _ _ _ Htok Hv Hu).
      rewrite (authenticateToken_unknown_account _ _ _ _ _ Htok Hv Hu).
      split; [eauto|]. by split.
    + rewrite (optionalAuth_lookup_throws _ _ _ _ _ _ Htok Hv Hu).
      rewrite (authenticateToken_lookup_throws _ _ _ _ _ _ Htok Hv Hu).
      split; [eauto|]. by split.
  - rewrite (optionalAuth_throws _ _ _ _ _ Htok Hv).
    rewrite (authenticateToken_throws _ _ _ _ _ Htok Hf Hv).
    split; [eauto|]. by split.
Qed.

(** X4: the role guard decides by list membership alone: an authenticated
    request passes, unchanged, exactly when its role is in the list, so an
    empty list lets nobody through; a request without a user is answered
    401 AUTH_REQUIRED. The guard leaves the database as it was either way. *)
Theorem requireRole_decides roles env req db :
  database (requireRole roles env req db) = db
  ∧ (req_user req = None →
     response (requireRole roles env req db) = Return (Send auth_required))
  ∧ (∀ u, req_user req = Some u →
     (response (requireRole roles env req db) = Return (Next req) ↔ role u ∈ roles)
     ∧ (role u ∉ roles →
        response (requireRole roles env req db) = Return (Send (forbidden_role roles u)))
     ∧ response (requireRole [] env req db) = Return (Send (forbidden_role [] u))).
Proof.
  destruct (req_user req) as [u|] eqn:Hu.
  - destruct (decide (role u ∈ roles)) as [Hin|Hnot].
    + rewrite (requireRole_allowed _ _ _ _ _ Hu Hin).
      split; [done|]. split; [done|]. intros ? [= <-].
      split; [done|]. split; [done|].
      rewrite (requireRole_denied [] _ _ _ _ Hu); [done|]. apply not_elem_of_nil.
    + rewrite (requireRole_denied _ _ _ _ _ Hu Hnot).
      split; [done|]. split; [done|]. intros ? [= <-].
      split; [split; [discriminate | done]|]. split; [done|].
      rewrite (requireRole_denied [] _ _ _ _ Hu); [done|]. apply not_elem_of_nil.
  - unfold requireRole. rewrite Hu. split; [done|]. split; done.
Qed.

(** X5: the ownership guard for an authenticated requester. An allowed role
    passes whatever the request holds, even without an id; any other role
    is answered 400 when the id parameter is missing or empty; with the id
    present and the resource attached with a non-empty owner field, the
    request passes exactly when that field equals the requester's id and is
    answered 403 NOT_RESOURCE_OWNER otherwise. The database is never
    touched. *)
Theorem requireOwnershipOrRole_decides resourceField allowedRoles req u db :
  req_user req = Some u →
  database (requireOwnershipOrRole resourceField allowedRoles req db) = db
  ∧ (role u ∈ allowedRoles →
     response (requireOwnershipOrRole resourceField allowedRoles req db)
     = Return (Next req))
  ∧ (role u ∉ allowedRoles → truthy (params req !! "id") = false →
     response (requireOwnershipOrRole resourceField allowedRoles req db)
     = Return (Send (mkResponse 400
         (error_body "Resource ID required" "RESOURCE_ID_REQUIRED"))))
  ∧ (∀ r o,
       role u ∉ allowedRoles → truthy (params req !! "id") = true →
       resource req = Some r → r !! resourceField = Some o → o ≠ "" →
       response (requireOwnershipOrRole resourceField allowedRoles req db)
       = Return (if bool_decide (o = _id u) then Next req
                 else Send (mkResponse 403
                        (error_body "Access denied - not resource owner"
                           "NOT_RESOURCE_OWNER")))).
Proof.
  intros Hu. split; [done|].
  unfold requireOwnershipOrRole, tryCatch, ownershipGuard, response. rewrite Hu.
  split; [|split].
  - intros Hin. by rewrite bool_decide_true.
  - intros Hnot Hid. rewrite bool_decide_false by done. by rewrite Hid.
  - intros r o Hnot Hid Hres Ho Hne. rewrite bool_decide_false by done.
    rewrite Hid, Hres, Ho. cbn [negb truthy default from_option id].
    rewrite bool_decide_false by done. cbn [negb].
    by case_bool_decide.
Qed.

(** ** More on registration and login *)

Lemma findOne_app_new P db u logs :
  findOne P db = None → P u = true →
  findOne P (mkDb (users db ++ [u]) logs) = Some u.
Proof.
  destruct db as [l logs0]. cbn [users]. intros Hnone HP.
  induction l as [|x l IH]; cbn [app].
  - by rewrite findOne_cons, HP.
  - rewrite findOne_cons in Hnone |- *. destruct (P x); [done|]. by apply IH.
Qed.

Lemma newAuditEvents_one db users' e :
  newAuditEvents db (mkDb users' (auditLogs db ++ [e])) = [e].
Proof.
  unfold newAuditEvents; cbn [auditLogs]. by rewrite drop_app_length.
Qed.

Lemma newAuditEvents_none db users' :
  newAuditEvents db (mkDb users' (auditLogs db)) = [].
Proof. unfold newAuditEvents; cbn [auditLogs]. by rewrite drop_all. Qed.

Lemma login_success env req mail pw db u :
  findByEmail mail db = Some u → isLocked (now env) u = false →
  isActive u = true → comparePassword u pw = true →
  login env req mail pw db
  = (Return (login_ok env u),
     mkDb ((λ x, if bool_decide (_id x = _id u) then loginUpdate env u x else x)
             <$> users db)
          (auditLogs db ++ [loginEvent env req mail u])).
Proof.
  intros H HL HA HP. unfold login.
  unfold tryCatch at 1. unfold mbind at 1, Async_bind at 1, getDb.
  rewrite H, HL, HA, HP. cbn [negb].
  unfold mbind at 1, Async_bind at 1.
  unfold loginUpdate.
  case_bool_decide.
  - rewrite updateById_spec. unfold mbind at 1, Async_bind at 1.
    rewrite updateById_spec. unfold mbind at 1, Async_bind at 1.
    rewrite createLog_accepted by reflexivity. cbn [users auditLogs].
    unfold login_ok. f_equal. f_equal.
    rewrite <- list_fmap_compose. apply list_fmap_ext. intros i x _. cbn.
    destruct (decide (_id x = _id u)) as [Hx|Hx].
    + rewrite (bool_decide_true _ Hx). cbn [_id resetLoginAttempts set_login_state].
      by rewrite (bool_decide_true _ Hx).
    + by rewrite !(bool_decide_false _ Hx).
  - unfold mret at 1, Async_ret at 1. unfold mbind at 1, Async_bind at 1.
    rewrite updateById_spec. unfold mbind at 1, Async_bind at 1.
    rewrite createLog_accepted by reflexivity. done.
Qed.

Lemma loginUpdate_id env u x : _id (loginUpdate env u x) = _id x.
Proof. unfold loginUpdate. by case_bool_decide. Qed.

Lemma loggedIn_unlocked env u :
  isLocked (now env) u = false → isLocked (now env) (loggedIn env u) = false.
Proof. unfold loggedIn, isLocked. by case_bool_decide. Qed.

(** X6: once a registration for an email has gone through, every further
    registration with that email that the validator of the route lets
    through to the handler, whatever else it carries, is answered 400
    USER_EXISTS and changes nothing. *)
Theorem register_twice env1 req1 mail pw1 first1 last1 r1 db :
  findByEmail mail db = None →
  let db1 := database (register env1 req1 mail pw1 first1 last1 r1 db) in
  (∃ r, response (register env1 req1 mail pw1 first1 last1 r1 db) = Return r
        ∧ status r = 201)
  ∧ ∀ env2 req2 pw2 first2 last2 r2,
      register env2 req2 mail pw2 first2 last2 r2 db1 = (Return user_exists, db1).
Proof.
  intros Hnone db1. subst db1.
  destruct (register_new_account env1 req1 mail pw1 first1 last1 r1 db Hnone)
    as [event ->].
  split; [eauto|]. intros env2 req2 pw2 first2 last2 r2.
  unfold database; cbn [snd]. unfold register. run.
  unfold findByEmail. by rewrite (findOne_app_new _ db _ _ Hnone) by by apply bool_decide_eq_true.
Qed.

(** X7: an account that has just been registered can log in with the
    password it registered with, provided bcrypt accepts that password
    against its own hash: the answer is 200 and carries a session token for
    the new account's id. *)
Theorem register_then_login env1 req1 mail pw first last r db env2 req2 :
  findByEmail mail db = None →
  bcrypt_compare pw (hashPassword pw) = true →
  let db1 := database (register env1 req1 mail pw first last r db) in
  ∃ user,
    response (login env2 req2 mail pw db1) = Return (login_ok env2 user)
    ∧ _id user = newObjectId env1 ∧ email user = mail
    ∧ status (login_ok env2 user) = 200.
Proof.
  intros Hnone Hbcrypt db1. subst db1.
  destruct (register_new_account env1 req1 mail pw first last r db Hnone)
    as [event ->].
  unfold database; cbn [snd].
  exists (newUser (newObjectId env1) mail (hashPassword pw) first last
            (default "student" r) (randomHex env1)).
  split; [|done].
  erewrite login_success; [done| | done | done | exact Hbcrypt].
  unfold findByEmail. by apply (findOne_app_new _ db _ _ Hnone), bool_decide_eq_true.
Qed.

(** X8: the token handed out by a successful login is accepted by the token
    middleware on the database the login left, as long as the configured
    lifetime is positive: the request goes on with that account, its last
    login set to the time of the login. The account must be the one stored
    under its id. *)
Theorem login_then_authenticate env req mail pw db u req2 :
  findByEmail mail db = Some u → findById (_id u) db = Return (Some u) →
  isLocked (now env) u = false → isActive u = true →
  comparePassword u pw = true →
  0 < default defaultExpiresIn (JWT_EXPIRES_IN env) →
  bearerToken req2 = Some (generateToken env (_id u)) →
  response (login env req mail pw db) = Return (login_ok env u)
  ∧ authenticateToken env req2 (database (login env req mail pw db))
    = (Return (Next (with_user (select_without_password (loggedIn env u)) req2)),
       database (login env req mail pw db))
  ∧ lastLogin (loggedIn env u) = Some (now env).
Proof.
  intros Hmail Hid HL HA HP Hlife Htok.
  rewrite (login_success _ _ _ _ _ _ Hmail HL HA HP). split; [done|].
  split; [|done]. unfold database; cbn [snd].
  set (db' := mkDb _ _).
  assert (Hfind : findById (_id u) db' = Return (Some (loggedIn env u))).
  { change (Return (Some (loggedIn env u)))
      with (Return (A:=option User) (Some (loginUpdate env u u))).
    rewrite <- (findById_updateById _ (loginUpdate env u) db u Hid
                  (loginUpdate_id env u)).
    by apply findById_users. }
  rewrite (authenticateToken_verified env req2 _
             (mkPayload (_id u) (seconds (now env))
                (seconds (now env) + default defaultExpiresIn (JWT_EXPIRES_IN env)))
             db' (loggedIn env u) Htok).
  - change (isActive (loggedIn env u)) with
      (isActive (if bool_decide (0 < loginAttempts u) then resetLoginAttempts u else u)).
    rewrite (loggedIn_unlocked _ _ HL).
    by case_bool_decide; cbn [isActive resetLoginAttempts set_login_state]; rewrite HA.
  - unfold generateToken, jwt_sign, jwt_verify.
    rewrite bool_decide_true by done. cbn [negb exp].
    by rewrite bool_decide_false by lia.
  - exact Hfind.
Qed.

(** X9: what a login leaves in the audit trail. An unknown email, and a
    deactivated account whatever the password, leave the database exactly
    as it was; a wrong password for an active, unlocked account appends one
    LOGIN FAILURE event of severity MEDIUM; a right one appends one LOGIN
    SUCCESS event of severity LOW. *)
Theorem login_audit env req mail pw db :
  (findByEmail mail db = None →
   login env req mail pw db = (Return invalid_credentials, db))
  ∧ (∀ u, findByEmail mail db = Some u → isLocked (now env) u = false →
     isActive u = false →
     login env req mail pw db
     = (Return (mkResponse 401
          (error_body "Account is deactivated" "ACCOUNT_DEACTIVATED")), db))
  ∧ (∀ u, findByEmail mail db = Some u → isLocked (now env) u = false →
     isActive u = true →
     newAuditEvents db (database (login env req mail pw db))
     = [if comparePassword u pw then loginEvent env req mail u
        else failedLoginEvent env req mail u]).
Proof.
  split; [apply login_no_account|]. split.
  - intros u H HL HA. unfold login. run. by rewrite H, HL, HA.
  - intros u H HL HA. destruct (comparePassword u pw) eqn:HP.
    + rewrite (login_success _ _ _ _ _ _ H HL HA HP). apply newAuditEvents_one.
    + rewrite (login_wrong_password _ _ _ _ _ _ H HL HA HP). apply newAuditEvents_one.
Qed.

(** ** Email verification *)

Lemma verifyEmail_no_token env req token db :
  truthyValue token = false →
  verifyEmail env req token db
  = (Return (mkResponse 400
       (error_body "Verification token is required" "TOKEN_REQUIRED")), db).
Proof. intros H. unfold verifyEmail. run. by rewrite H. Qed.

Lemma verifyEmail_no_match env req token selects db :
  truthyValue token = true → castStringFilter token = Return selects →
  findOne (λ u, selects (emailVerificationToken u)) db = None →
  verifyEmail env req token db = (Return invalid_verification_token, db).
Proof.
  intros Ht Hc H. unfold verifyEmail. rewrite Ht. cbn [negb]. run.
  rewrite Hc. by rewrite H.
Qed.

Lemma verifyEmail_match env req token selects db u :
  truthyValue token = true → castStringFilter token = Return selects →
  findOne (λ u, selects (emailVerificationToken u)) db = Some u →
  verifyEmail env req token db
  = (Return (verified_ok u),
     mkDb ((λ x, if bool_decide (_id x = _id u) then set_verified x else x)
             <$> users db)
          (auditLogs db ++ [verifyEvent env req u])).
Proof.
  intros Ht Hc H. unfold verifyEmail.
  unfold tryCatch at 1. rewrite Ht. cbn [negb].
  unfold mbind at 1, Async_bind at 1, getDb.
  unfold mbind at 1, Async_bind at 1, lift. rewrite Hc. rewrite H.
  unfold mbind at 1, Async_bind at 1. rewrite updateById_spec.
  unfold mbind at 1, Async_bind at 1.
  rewrite createLog_accepted by reflexivity. done.
Qed.

(** X10: email verification, the token being whatever value the request
    body holds. A request without a token, or with a falsy one (null, the
    empty string, zero, false), is answered 400 TOKEN_REQUIRED and verifies
    nobody, although accounts without a verification token exist. A string
    that no account holds is answered 400 INVALID_TOKEN with nothing
    changed; a string that an account holds marks it verified and removes
    the token, and when no second account holds the same string, every
    later request with it is answered INVALID_TOKEN. An object of query
    operators verifies the first account whose token field satisfies them,
    without naming that token. *)
Theorem verifyEmail_single_use env req db :
  (∀ token, truthyValue token = false →
     verifyEmail env req token db
     = (Return (mkResponse 400
          (error_body "Verification token is required" "TOKEN_REQUIRED")), db))
  ∧ (∀ token, token ≠ "" →
     (∀ x, x ∈ users db → emailVerificationToken x ≠ Some token) →
     verifyEmail env req (BStr token) db = (Return invalid_verification_token, db))
  ∧ (∀ token x, token ≠ "" → x ∈ users db → emailVerificationToken x = Some token →
     ∃ u db1,
       u ∈ users db ∧ emailVerificationToken u = Some token
       ∧ verifyEmail env req (BStr token) db = (Return (verified_ok u), db1)
       ∧ users db1
         = (λ x, if bool_decide (_id x = _id u) then set_verified x else x) <$> users db
       ∧ isEmailVerified (set_verified u) = true
       ∧ emailVerificationToken (set_verified u) = None
       ∧ (verifiedByOneAccount token db →
          ∀ env2 req2,
            verifyEmail env2 req2 (BStr token) db1
            = (Return invalid_verification_token, db1)))
  ∧ (∀ selects x, x ∈ users db → selects (emailVerificationToken x) = true →
     ∃ u db1,
       u ∈ users db ∧ selects (emailVerificationToken u) = true
       ∧ verifyEmail env req (BOperators selects) db = (Return (verified_ok u), db1)
       ∧ users db1
         = (λ x, if bool_decide (_id x = _id u) then set_verified x else x) <$> users db).
Proof.
  split; [intros token; apply verifyEmail_no_token|]. split; [|split].
  - intros token Hne Hnone.
    eapply (verifyEmail_no_match _ _ (BStr token)); [|reflexivity|].
    + cbn [truthyValue]. by rewrite bool_decide_false.
    + apply findOne_None. intros x Hx. apply bool_decide_eq_false. by apply Hnone.
  - intros token x Hne Hx Hholds.
    assert (Ht : truthyValue (BStr token) = true)
      by (cbn [truthyValue]; by rewrite bool_decide_false).
    destruct (findOne (λ u, bool_decide (emailVerificationToken u = Some token)) db)
      as [u|] eqn:Hfind.
    2:{ rewrite findOne_None in Hfind. specialize (Hfind x Hx).
        by apply bool_decide_eq_false in Hfind. }
    pose proof (findOne_Some _ _ _ Hfind) as [Hu Hut%bool_decide_eq_true].
    eexists u, _. split; [done|]. split; [done|].
    split; [by apply (verifyEmail_match _ _ (BStr token) _ _ u Ht eq_refl)|].
    split; [reflexivity|]. split; [reflexivity|]. split; [reflexivity|].
    intros Honce env2 req2.
    apply (verifyEmail_no_match _ _ (BStr token) _ _ Ht eq_refl).
    apply (findOne_updateById_None _ (_id u) set_verified db).
    + intros y Hy Hy1%bool_decide_eq_true. by apply (Honce y u).
    + intros y. reflexivity.
  - intros selects x Hx Hsel.
    destruct (findOne (λ u, selects (emailVerificationToken u)) db) as [u|] eqn:Hfind.
    2:{ rewrite findOne_None in Hfind. specialize (Hfind x Hx). congruence. }
    pose proof (findOne_Some _ _ _ Hfind) as [Hu Hut].
    eexists u, _. split; [done|]. split; [done|].
    split; [by apply (verifyEmail_match _ _ (BOperators selects) _ _ u eq_refl eq_refl)|].
    reflexivity.
Qed.

(** ** Forgotten password, continued *)

Lemma forgotPassword_existing env req mail db u :
  findByEmail mail db = Some u →
  forgotPassword env req mail db
  = (Return (if mailDelivers env then res_json reset_link_sent else email_send_error),
     mkDb ((λ x, if bool_decide (_id x = _id u) then withResetToken env x else x)
             <$> users db)
          (if mailDelivers env then auditLogs db ++ [requestEvent env req mail u]
           else auditLogs db)).
Proof.
  intros H. unfold forgotPassword.
  rewrite (sendEmail_known _ _ _ passwordReset_template).
  run. rewrite H. rewrite updateById_spec.
  destruct (mailDelivers env); cbn [negb]; [|done].
  by rewrite createLog_accepted by reflexivity.
Qed.

(** X12: a forgot-password request for an existing account stores a new
    token with an expiry one hour ahead on that account, replacing whatever
    was there, before the mail goes out: the token is stored also when the
    mail fails and the answer is 500, and in that case no audit event is
    written; with the mail delivered exactly one event is. A request for an
    unknown email changes nothing. *)
Theorem forgotPassword_stores_token env req mail db :
  (findByEmail mail db = None → database (forgotPassword env req mail db) = db)
  ∧ (∀ u, findByEmail mail db = Some u →
     let db1 := database (forgotPassword env req mail db) in
     users db1
       = (λ x, if bool_decide (_id x = _id u) then withResetToken env x else x)
           <$> users db
     ∧ findByEmail mail db1 = Some (withResetToken env u)
     ∧ passwordResetToken (withResetToken env u) = Some (randomHex env)
     ∧ passwordResetExpires (withResetToken env u) = Some (now env + 3600000)
     ∧ newAuditEvents db db1
       = (if mailDelivers env then [requestEvent env req mail u] else [])).
Proof.
  split.
  - intros H. by rewrite (forgotPassword_no_account _ _ _ _ H).
  - intros u H db1. subst db1. rewrite (forgotPassword_existing _ _ _ _ _ H).
    unfold database; cbn [snd users]. split; [done|]. split.
    { exact (findOne_updateById _ (withResetToken env) db u H (λ _, eq_refl)). }
    split; [done|]. split; [done|].
    destruct (mailDelivers env);
      [apply newAuditEvents_one | apply newAuditEvents_none].
Qed.

(** X11: the token stored by a forgot-password request, whether or not the
    mail went out, resets that account's password while less than an hour
    has passed, and is refused with INVALID_TOKEN from one hour on. No other
    account may already hold the same random token. *)
Theorem forgotPassword_then_resetPassword env req mail db u env2 req2 pw :
  findByEmail mail db = Some u →
  (∀ x, x ∈ users db → passwordResetToken x ≠ Some (randomHex env)) →
  let db1 := database (forgotPassword env req mail db) in
  (now env2 < now env + 3600000 →
   ∃ db2,
     resetPassword env2 req2 (BStr (randomHex env)) pw db1 = (Return reset_ok, db2)
     ∧ findByEmail mail db2
       = Some (clearReset (hashPassword pw) (withResetToken env u))
     ∧ password (clearReset (hashPassword pw) (withResetToken env u))
       = hashPassword pw)
  ∧ (now env + 3600000 ≤ now env2 →
     resetPassword env2 req2 (BStr (randomHex env)) pw db1
     = (Return invalid_reset_token, db1)).
Proof.
  intros Hmail Hfresh db1.
  assert (Husers : users db1
    = (λ x, if bool_decide (_id x = _id u) then withResetToken env x else x)
        <$> users db).
  { subst db1. by rewrite (forgotPassword_existing _ _ _ _ _ Hmail). }
  assert (Hmail1 : findByEmail mail db1 = Some (withResetToken env u)).
  { unfold findByEmail.
    rewrite (findOne_users _ db1 (database (updateById (_id u) (withResetToken env) db)))
      by exact Husers.
    exact (findOne_updateById _ (withResetToken env) db u Hmail (λ _, eq_refl)). }
  assert (Hholder : ∀ y, y ∈ users db1 →
            passwordResetToken y = Some (randomHex env) →
            _id y = _id u ∧ passwordResetExpires y = Some (now env + 60 * 60 * 1000)).
  { intros y. rewrite Husers. intros (x & -> & Hx)%list_elem_of_fmap.
    case_bool_decide as Hid; [by intros _|]. intros Hy. by destruct (Hfresh x Hx). }
  split.
  - intros Hlt.
    destruct (findOne (holdsResetToken (randomHex env) (now env2)) db1)
      as [u'|] eqn:Hfind.
    2:{ rewrite findOne_None in Hfind.
        pose proof (findOne_Some _ _ _ Hmail1) as [Hin _].
        specialize (Hfind _ Hin). unfold holdsResetToken in Hfind.
        cbn in Hfind. rewrite bool_decide_true in Hfind by done.
        by rewrite bool_decide_true in Hfind by lia. }
    pose proof (findOne_Some _ _ _ Hfind) as [Hin' [Htok' _]%holdsResetToken_true].
    destruct (Hholder _ Hin' Htok') as [Hid' _].
    eexists.
    split; [by apply (resetPassword_match _ _ (BStr (randomHex env)) _ _ _ u' eq_refl)|].
    split; [|done].
    rewrite Hid'.
    exact (findOne_updateById _ (clearReset (hashPassword pw)) db1
             (withResetToken env u) Hmail1 (λ _, eq_refl)).
  - intros Hge.
    apply (resetPassword_no_match _ _ (BStr (randomHex env)) _ _ _ eq_refl), findOne_None.
    rewrite resetFilter_string.
    intros y Hy. apply not_true_is_false. intros [Htok (e & He & Hlt)]%holdsResetToken_true.
    destruct (Hholder _ Hy Htok) as [_ Hexp]. rewrite Hexp in He.
    injection He as <-. lia.
Qed.

(** ** Password change and logout *)

Lemma changePasswordHandler_wrong env req me u current pw db :
  req_user req = Some me → lookupId (_id me) db = Some u →
  comparePassword u current = false →
  changePasswordHandler env req current pw db = (Return invalid_current_password, db).
Proof.
  intros Hme Hu HP. unfold changePasswordHandler. rewrite Hme. cbn [from_option].
  run. rewrite Hu. cbn [from_option]. by rewrite HP.
Qed.

Lemma changePasswordHandler_right env req me u current pw db :
  req_user req = Some me → lookupId (_id me) db = Some u →
  comparePassword u current = true →
  changePasswordHandler env req current pw db
  = (Return password_changed,
     mkDb (users (database (updateById (_id u) (set_password (hashPassword pw)) db)))
          (auditLogs db ++ [changeEvent env req u])).
Proof.
  intros Hme Hu HP. unfold changePasswordHandler. rewrite Hme. cbn [from_option].
  unfold tryCatch at 1. unfold mbind at 1, Async_bind at 1, mret at 1, Async_ret at 1.
  unfold mbind at 1, Async_bind at 1, getDb. rewrite Hu. cbn [from_option].
  unfold mbind at 1, Async_bind at 1, mret at 1, Async_ret at 1.
  rewrite HP. cbn [negb].
  unfold mbind at 1, Async_bind at 1. rewrite updateById_spec.
  unfold mbind at 1, Async_bind at 1. rewrite sendEmail_swallowed.
  unfold mbind at 1, Async_bind at 1.
  rewrite createLog_accepted by reflexivity. done.
Qed.

(** X13: changing the password. With a wrong current password the answer
    is 400 INVALID_CURRENT_PASSWORD and nothing changes; when the account
    of the session no longer exists the answer is 500 and nothing changes.
    With the right one the stored hash becomes the hash of the new
    password, one PASSWORD_RESET event is appended whether or not the
    confirmation mail goes out, and from then on a login for that account
    is decided by the new hash alone. *)
Theorem changePassword_replaces_hash env req me current pw db :
  req_user req = Some me →
  (lookupId (_id me) db = None →
   changePasswordHandler env req current pw db
   = (Return (mkResponse 500
        (error_body "Password change failed" "PASSWORD_CHANGE_ERROR")), db))
  ∧ (∀ u, lookupId (_id me) db = Some u → comparePassword u current = false →
     changePasswordHandler env req current pw db
     = (Return invalid_current_password, db))
  ∧ (∀ u, lookupId (_id me) db = Some u → comparePassword u current = true →
     let db1 := database (changePasswordHandler env req current pw db) in
     response (changePasswordHandler env req current pw db) = Return password_changed
     ∧ lookupId (_id me) db1 = Some (set_password (hashPassword pw) u)
     ∧ newAuditEvents db db1 = [changeEvent env req u]
     ∧ (∀ env2 req2 mail candidate,
          findByEmail mail db = Some u →
          isLocked (now env2) u = false → isActive u = true →
          response (login env2 req2 mail candidate db1)
          = Return (if bcrypt_compare candidate (hashPassword pw)
                    then login_ok env2 (set_password (hashPassword pw) u)
                    else invalid_credentials))).
Proof.
  intros Hme. split; [|split].
  - intros Hnone. unfold changePasswordHandler. rewrite Hme. cbn [from_option].
    run. by rewrite Hnone.
  - intros u Hu HP. by apply (changePasswordHandler_wrong _ _ me u).
  - intros u Hu HP db1. subst db1.
    rewrite (changePasswordHandler_right _ _ _ _ _ _ _ Hme Hu HP).
    pose proof (findOne_Some _ _ _ Hu) as [_ Hid%bool_decide_eq_true].
    unfold database at 1 2 3; cbn [snd fst response].
    split; [done|]. split.
    { assert (Hu' : lookupId (_id u) db = Some u) by (by rewrite Hid).
      rewrite <- Hid.
      exact (findOne_updateById _ (set_password (hashPassword pw)) db u Hu'
               (λ _, eq_refl)). }
    split; [apply newAuditEvents_one|].
    intros env2 req2 mail candidate Hmail HL HA.
    set (db1 := mkDb _ _).
    assert (Hmail1 : findByEmail mail db1 = Some (set_password (hashPassword pw) u)).
    { exact (findOne_updateById _ (set_password (hashPassword pw)) db u Hmail
               (λ _, eq_refl)). }
    destruct (bcrypt_compare candidate (hashPassword pw)) eqn:Hb.
    + by rewrite (login_success _ _ _ _ _ _ Hmail1 HL HA Hb).
    + by rewrite (login_wrong_password _ _ _ _ _ _ Hmail1 HL HA Hb).
Qed.

Lemma authenticateToken_shape env req db :
  ∃ step,
    authenticateToken env req db = (Return step, db)
    ∧ ∀ req', step = Next req' → ∃ u, req' = with_user u req.
Proof.
  destruct (falsy_token (bearerToken req)) eqn:Hf.
  { rewrite (authenticateToken_no_token _ _ _ Hf). eexists. by split. }
  destruct (bearerToken req) as [tok|] eqn:Htok; [|done].
  destruct (jwt_verify tok (JWT_SECRET env) (now env)) as [p|e] eqn:Hv.
  - destruct (findById (userId p) db) as [[u|]|e'] eqn:Hu.
    + rewrite (authenticateToken_verified _ _ _ _ _ _ Htok Hv Hu).
      eexists. split; [done|].
      destruct (negb (isActive u)); [done|].
      destruct (isLocked (now env) u); [done|]. intros ? [= <-]. eauto.
    + rewrite (authenticateToken_unknown_account _ _ _ _ _ Htok Hv Hu).
      eexists. by split.
    + rewrite (authenticateToken_lookup_throws _ _ _ _ _ _ Htok Hv Hu).
      eexists. by split.
  - rewrite (authenticateToken_throws _ _ _ _ _ Htok Hf Hv). eexists. by split.
Qed.

Lemma authenticateToken_users env req db1 db2 :
  users db1 = users db2 →
  response (authenticateToken env req db1) = response (authenticateToken env req db2).
Proof.
  intros Husers.
  destruct (falsy_token (bearerToken req)) eqn:Hf.
  { by rewrite !(authenticateToken_no_token _ _ _ Hf). }
  destruct (bearerToken req) as [tok|] eqn:Htok; [|done].
  destruct (jwt_verify tok (JWT_SECRET env) (now env)) as [p|e] eqn:Hv.
  - pose proof (findById_users (userId p) db1 db2 Husers) as Hsame.
    destruct (findById (userId p) db1) as [[u|]|e'] eqn:Hu; symmetry in Hsame.
    + rewrite (authenticateToken_verified _ _ _ _ db1 _ Htok Hv Hu).
      by rewrite (authenticateToken_verified _ _ _ _ db2 u Htok Hv Hsame).
    + rewrite (authenticateToken_unknown_account _ _ _ _ db1 Htok Hv Hu).
      by rewrite (authenticateToken_unknown_account _ _ _ _ db2 Htok Hv Hsame).
    + rewrite (authenticateToken_lookup_throws _ _ _ _ _ db1 Htok Hv Hu).
      by rewrite (authenticateToken_lookup_throws _ _ _ _ _ db2 Htok Hv Hsame).
  - by rewrite !(authenticateToken_throws _ _ _ _ _ Htok Hf Hv).
Qed.

Lemma logoutHandler_appends env req me db :
  req_user req = Some me →
  logoutHandler env req db
  = (Return logged_out, mkDb (users db) (auditLogs db ++ [logoutEvent env req me])).
Proof.
  intros Hme. unfold logoutHandler. rewrite Hme. cbn [from_option]. run.
  by rewrite createLog_accepted by reflexivity.
Qed.

(** X14: logout revokes nothing. Whatever the request, the accounts are left
    as they were, and every request is treated by the token middleware
    after the logout exactly as before it; an authenticated logout appends
    one LOGOUT event and answers 200. *)
Theorem logout_revokes_nothing env req db :
  users (database (logout env req db)) = users db
  ∧ (∀ env2 req2,
       response (authenticateToken env2 req2 (database (logout env req db)))
       = response (authenticateToken env2 req2 db))
  ∧ (∀ req', authenticateToken env req db = (Return (Next req'), db) →
     ∃ me, req_user req' = Some me
           ∧ logout env req db
             = (Return logged_out,
                mkDb (users db) (auditLogs db ++ [logoutEvent env req' me]))).
Proof.
  assert (Husers : users (database (logout env req db)) = users db).
  { unfold logout, andThen. run.
    destruct (authenticateToken_shape env req db) as (step & -> & Hnext).
    destruct step as [req'|r]; [|done].
    destruct (Hnext req' eq_refl) as [u ->].
    by rewrite (logoutHandler_appends _ _ u). }
  split; [done|]. split.
  - intros env2 req2. by apply authenticateToken_users.
  - intros req' Hauth.
    destruct (authenticateToken_shape env req db) as (step & Hstep & Hnext).
    rewrite Hauth in Hstep. injection Hstep as <-.
    destruct (Hnext req' eq_refl) as [u ->]. exists u. split; [done|].
    unfold logout. rewrite (andThen_Next _ _ _ _ _ Hauth).
    by apply logoutHandler_appends.
Qed.

(** ** What no route takes away *)

Lemma grows_refl db : grows db db.
Proof. by split. Qed.

Lemma grows_trans db1 db2 db3 : grows db1 db2 → grows db2 db3 → grows db1 db3.
Proof. intros [? ?] [? ?]. split; by etrans. Qed.

Lemma Monotone_ret {A} (a : A) : Monotone (mret a).
Proof. intros db. apply grows_refl. Qed.

Lemma Monotone_throw {A} e : Monotone (throw (A:=A) e).
Proof. intros db. apply grows_refl. Qed.

Lemma Monotone_lift {A} (o : Outcome A) : Monotone (lift o).
Proof. intros db. apply grows_refl. Qed.

Lemma Monotone_getDb : Monotone getDb.
Proof. intros db. apply grows_refl. Qed.

Lemma Monotone_bind {A B} (m : Async A) (k : A → Async B) :
  Monotone m → (∀ a, Monotone (k a)) → Monotone (m ≫= k).
Proof.
  intros Hm Hk db. specialize (Hm db). unfold mbind, Async_bind.
  destruct (m db) as [[a|e] db1]; cbn [snd] in *; [|done].
  by apply (grows_trans _ db1), Hk.
Qed.

Lemma Monotone_tryCatch {A} (m : Async A) (h : JsError → Async A) :
  Monotone m → (∀ e, Monotone (h e)) → Monotone (tryCatch m h).
Proof.
  intros Hm Hh db. specialize (Hm db). unfold tryCatch.
  destruct (m db) as [[a|e] db1]; cbn [snd] in *; [done|].
  by apply (grows_trans _ db1), Hh.
Qed.

Lemma Monotone_detached {A} (m : Async A) : Monotone m → Monotone (detached m).
Proof. intros Hm db. apply Hm. Qed.

Lemma Monotone_andThen (m : Async Step) (k : Request → Async Response) :
  Monotone m → (∀ r, Monotone (k r)) → Monotone (andThen m k).
Proof.
  intros Hm Hk. apply Monotone_bind; [done|]. intros [r|r]; [apply Hk|apply Monotone_ret].
Qed.

Lemma Monotone_createLog t d : Monotone (AuditLogModel.createLog t d).
Proof.
  intros db. unfold AuditLogModel.createLog.
  destruct (AuditLogModel.validate d); [apply grows_refl|].
  run. split; cbn [auditLogs users]; [by apply prefix_app_r | done].
Qed.

Lemma Monotone_updateById id f :
  (∀ x, _id (f x) = _id x) → Monotone (updateById id f).
Proof.
  intros Hf db. split; [done|].
  change (snd (updateById id f db)) with (database (updateById id f db)).
  by rewrite (updateById_ids id f db Hf).
Qed.

Lemma Monotone_insertUser u : Monotone (insertUser u).
Proof.
  intros db. split; [done|]. cbn [insertUser snd users].
  rewrite fmap_app. by apply prefix_app_r.
Qed.

Lemma Monotone_sendEmail env to template : Monotone (sendEmail env to template).
Proof.
  unfold sendEmail. destruct (negb _); [apply Monotone_throw|].
  destruct (mailDelivers env); [apply Monotone_ret | apply Monotone_throw].
Qed.

Ltac mono :=
  cbv zeta;
  repeat first
    [ apply Monotone_ret | apply Monotone_throw | apply Monotone_lift
    | apply Monotone_getDb | apply Monotone_createLog | apply Monotone_insertUser
    | apply Monotone_sendEmail
    | apply Monotone_updateById; intros ?; reflexivity
    | apply Monotone_bind; [|intros ?]
    | apply Monotone_tryCatch; [|intros ?]
    | apply Monotone_andThen; [|intros ?]
    | match goal with
      | |- Monotone (detached _) => apply Monotone_detached
      | |- Monotone (if ?b then _ else _) => destruct b
      | |- Monotone (match ?o with Some _ => _ | None => _ end) => destruct o
      | |- Monotone (match ?s with Next _ => _ | Send _ => _ end) => destruct s
      | |- Monotone (match ?e with JsonWebTokenError => _ | _ => _ end) => destruct e
      | |- Monotone (from_option _ _ ?o) => destruct o; cbn [from_option]
      end ].

Lemma authenticateToken_Monotone env req : Monotone (authenticateToken env req).
Proof. unfold authenticateToken. mono. Qed.

Lemma optionalAuth_Monotone env req : Monotone (optionalAuth env req).
Proof. unfold optionalAuth. mono. Qed.

Lemma requireRole_Monotone roles env req : Monotone (requireRole roles env req).
Proof. unfold requireRole. mono. Qed.

Lemma requirePermission_Monotone perm env req :
  Monotone (requirePermission perm env req).
Proof. unfold requirePermission. mono. Qed.

Lemma requireOwnershipOrRole_Monotone field roles req :
  Monotone (requireOwnershipOrRole field roles req).
Proof. unfold requireOwnershipOrRole. mono. Qed.

Lemma register_Monotone env req mail pw first last r :
  Monotone (register env req mail pw first last r).
Proof. unfold register. mono. Qed.

Lemma login_Monotone env req mail pw : Monotone (login env req mail pw).
Proof. unfold login. mono. Qed.

Lemma logout_Monotone env req : Monotone (logout env req).
Proof. unfold logout, logoutHandler, authenticateToken. mono. Qed.

Lemma verifyEmail_Monotone env req token : Monotone (verifyEmail env req token).
Proof. unfold verifyEmail. mono. Qed.

Lemma forgotPassword_Monotone env req mail : Monotone (forgotPassword env req mail).
Proof. unfold forgotPassword. mono. Qed.

Lemma resetPassword_Monotone env req token pw :
  Monotone (resetPassword env req token pw).
Proof. unfold resetPassword. mono. Qed.

Lemma changePassword_Monotone env req current pw :
  Monotone (changePassword env req current pw).
Proof. unfold changePassword, changePasswordHandler, authenticateToken. mono. Qed.

Lemma deleteUser_Monotone env req : Monotone (deleteUser env req).
Proof.
  unfold deleteUser, deleteUserHandler, getUserById_validation, authenticateToken,
    requireRole. mono.
Qed.

Lemma getUserHandler_Monotone req : Monotone (getUserHandler req).
Proof. unfold getUserHandler. mono. Qed.

Lemma getActivityHandler_Monotone req limit : Monotone (getActivityHandler req limit).
Proof. unfold getActivityHandler. mono. Qed.

(** X15: the audit trail is append-only. Whatever the request and whatever
    the database, each middleware and each route leaves a trail of which
    the trail it found is a prefix: no event is removed, changed or
    reordered. *)
Theorem audit_trail_is_append_only env req db :
  let kept := λ A (m : Async A), auditLogs db `prefix_of` auditLogs (snd (m db)) in
  kept _ (authenticateToken env req)
  ∧ kept _ (optionalAuth env req)
  ∧ (∀ roles, kept _ (requireRole roles env req))
  ∧ (∀ permission, kept _ (requirePermission permission env req))
  ∧ (∀ field roles, kept _ (requireOwnershipOrRole field roles req))
  ∧ (∀ mail pw first last r, kept _ (register env req mail pw first last r))
  ∧ (∀ mail pw, kept _ (login env req mail pw))
  ∧ kept _ (logout env req)
  ∧ (∀ token, kept _ (verifyEmail env req token))
  ∧ (∀ mail, kept _ (forgotPassword env req mail))
  ∧ (∀ token pw, kept _ (resetPassword env req token pw))
  ∧ (∀ current pw, kept _ (changePassword env req current pw))
  ∧ kept _ (deleteUser env req)
  ∧ kept _ (getUserHandler req)
  ∧ (∀ limit, kept _ (getActivityHandler req limit)).
Proof.
  intros kept. subst kept. cbv beta.
  repeat split; intros;
    first [ apply authenticateToken_Monotone | apply optionalAuth_Monotone
          | apply requireRole_Monotone | apply requirePermission_Monotone
          | apply requireOwnershipOrRole_Monotone | apply register_Monotone
          | apply login_Monotone | apply logout_Monotone | apply verifyEmail_Monotone
          | apply forgotPassword_Monotone | apply resetPassword_Monotone
          | apply changePassword_Monotone | apply deleteUser_Monotone
          | apply getUserHandler_Monotone | apply getActivityHandler_Monotone ].
Qed.

(** X16: no middleware and no route removes an account, reorders the
    collection or changes an id: the ids found are a prefix of the ids
    left, a registration adding one at the end. *)
Theorem accounts_are_never_removed env req db :
  let kept := λ A (m : Async A),
    (_id <$> users db) `prefix_of` (_id <$> users (snd (m db))) in
  kept _ (authenticateToken env req)
  ∧ kept _ (optionalAuth env req)
  ∧ (∀ roles, kept _ (requireRole roles env req))
  ∧ (∀ permission, kept _ (requirePermission permission env req))
  ∧ (∀ field roles, kept _ (requireOwnershipOrRole field roles req))
  ∧ (∀ mail pw first last r, kept _ (register env req mail pw first last r))
  ∧ (∀ mail pw, kept _ (login env req mail pw))
  ∧ kept _ (logout env req)
  ∧ (∀ token, kept _ (verifyEmail env req token))
  ∧ (∀ mail, kept _ (forgotPassword env req mail))
  ∧ (∀ token pw, kept _ (resetPassword env req token pw))
  ∧ (∀ current pw, kept _ (changePassword env req current pw))
  ∧ kept _ (deleteUser env req)
  ∧ kept _ (getUserHandler req)
  ∧ (∀ limit, kept _ (getActivityHandler req limit)).
Proof.
  intros kept. subst kept. cbv beta.
  repeat split; intros;
    first [ apply authenticateToken_Monotone | apply optionalAuth_Monotone
          | apply requireRole_Monotone | apply requirePermission_Monotone
          | apply requireOwnershipOrRole_Monotone | apply register_Monotone
          | apply login_Monotone | apply logout_Monotone | apply verifyEmail_Monotone
          | apply forgotPassword_Monotone | apply resetPassword_Monotone
          | apply changePassword_Monotone | apply deleteUser_Monotone
          | apply getUserHandler_Monotone | apply getActivityHandler_Monotone ].
Qed.

(** ** Activity queries *)

#[local] Instance newerFirst_trans : Transitive newerFirst.
Proof. intros a b c. unfold newerFirst. lia. Qed.

#[local] Instance newerFirst_total : Total newerFirst.
Proof. intros a b. unfold newerFirst. lia. Qed.

Lemma limitTo_take {A} n (l : list A) :
  ∃ dropped, l = limitTo n l ++ dropped ∧ (n = 0 → dropped = []).
Proof.
  unfold limitTo. case_bool_decide as Hn.
  - exists []. by rewrite app_nil_r.
  - exists (drop (Z.abs_nat n) l). by rewrite take_drop.
Qed.

Lemma limitTo_length {A} n (l : list A) :
  n ≠ 0 → (length (limitTo n l) ≤ Z.abs_nat n)%nat.
Proof.
  intros Hn. unfold limitTo. rewrite bool_decide_false by done.
  rewrite length_take. lia.
Qed.

Lemma events_of_populated fields db (l : list AuditLog) :
  fst <$> (populateUser fields db <$> l) = l.
Proof.
  rewrite <- list_fmap_compose. rewrite <- (list_fmap_id l) at 2.
  by apply list_fmap_ext.
Qed.

(** The events of a query result: a selection of the trail, sorted newest
    first and cut at the limit, the cut dropping only events that are not
    newer than any event kept. *)
Lemma limited_sorted_selection (P : AuditLog → Prop) `{∀ e, Decision (P e)}
    (n : Z) (trail : list AuditLog) :
  let kept := limitTo n (merge_sort newerFirst (filter P trail)) in
  (∀ e, e ∈ kept → P e ∧ e ∈ trail)
  ∧ StronglySorted newerFirst kept
  ∧ (n ≠ 0 → (length kept ≤ Z.abs_nat n)%nat)
  ∧ (∃ dropped,
       kept ++ dropped ≡ₚ filter P trail
       ∧ (n = 0 → dropped = [])
       ∧ ∀ e e', e ∈ kept → e' ∈ dropped → al_timestamp e' ≤ al_timestamp e).
Proof.
  intros kept. subst kept.
  destruct (limitTo_take n (merge_sort newerFirst (filter P trail)))
    as (dropped & Hsplit & Hzero).
  pose proof (StronglySorted_merge_sort newerFirst (filter P trail)) as Hsorted.
  pose proof (merge_sort_Permutation newerFirst (filter P trail)) as Hperm.
  rewrite Hsplit in Hsorted, Hperm.
  split; [|split; [|split]].
  - intros e He. apply (proj1 (list_elem_of_filter P trail e)). rewrite <- Hperm.
    apply elem_of_app. by left.
  - by apply StronglySorted_app_1_l in Hsorted.
  - apply limitTo_length.
  - exists dropped. split; [done|]. split; [done|].
    intros e e' He He'. by apply (StronglySorted_app_1_elem_of _ _ _ _ _ Hsorted).
Qed.

(** X17: the activity of a user. Every entry returned is an event of the
    trail whose actor is that user, paired with that actor's name and email
    when the account exists; the entries come newest first; with a limit
    other than zero there are at most that many, 50 when none is given, and
    the entries cut off are none of them newer than an entry kept; with
    limit zero nothing is cut off. *)
Theorem getUserActivity_newest_of_user userId limit db :
  let result := getUserActivity userId limit db in
  (∀ entry, entry ∈ result →
     ld_user (al_data entry.1) = userId ∧ entry.1 ∈ auditLogs db
     ∧ entry = populateUser nameAndEmail db entry.1)
  ∧ StronglySorted newerFirst (fst <$> result)
  ∧ (default 50 limit ≠ 0 → (length result ≤ Z.abs_nat (default 50%Z limit))%nat)
  ∧ (limit = None → (length result ≤ 50)%nat)
  ∧ (∃ dropped,
       (fst <$> result) ++ dropped
         ≡ₚ filter (λ e, ld_user (al_data e) = userId) (auditLogs db)
       ∧ (limit = Some 0 → dropped = [])
       ∧ ∀ e e', e ∈ fst <$> result → e' ∈ dropped →
           al_timestamp e' ≤ al_timestamp e).
Proof.
  intros result. subst result. unfold getUserActivity.
  rewrite events_of_populated.
  destruct (limited_sorted_selection (λ e, ld_user (al_data e) = userId)
              (default 50 limit) (auditLogs db))
    as (Hin & Hsorted & Hlen & dropped & Hperm & Hzero & Hnewer).
  split; [|split; [|split; [|split]]].
  - intros entry (e & -> & He)%list_elem_of_fmap. cbn [fst populateUser].
    destruct (Hin e He). done.
  - done.
  - rewrite length_fmap. done.
  - intros ->. rewrite length_fmap. by apply Hlen.
  - exists dropped. split; [done|]. split; [|done]. intros ->. by apply Hzero.
Qed.

Lemma systemQuery_one_sided a r s st start stop e :
  systemQuery (mkFilters a r s st (Some start) None) e
    = systemQuery (mkFilters a r s st None None) e
  ∧ systemQuery (mkFilters a r s st None (Some stop)) e
    = systemQuery (mkFilters a r s st None None) e.
Proof. by split. Qed.

(** X18: the system activity query. Every entry returned matches each
    filter that is a non-empty string, and lies within the two dates when
    both are given; the entries come newest first and number at most the
    limit, 100 when none is given. A start date without an end date, or an
    end date without a start date, filters nothing, and neither does an
    empty string. *)
Theorem getSystemActivity_filters f limit db :
  let result := getSystemActivity f limit db in
  (∀ entry, entry ∈ result →
     entry.1 ∈ auditLogs db
     ∧ (∀ a, f_action f = Some a → a ≠ "" → ld_action (al_data entry.1) = a)
     ∧ (∀ r, f_resource f = Some r → r ≠ "" → ld_resource (al_data entry.1) = r)
     ∧ (∀ s, f_severity f = Some s → s ≠ "" → ld_severity (al_data entry.1) = s)
     ∧ (∀ s, f_status f = Some s → s ≠ "" → ld_status (al_data entry.1) = s)
     ∧ (∀ start stop, f_startDate f = Some start → f_endDate f = Some stop →
          start ≤ al_timestamp entry.1 ≤ stop))
  ∧ StronglySorted newerFirst (fst <$> result)
  ∧ (default 100 limit ≠ 0 → (length result ≤ Z.abs_nat (default 100%Z limit))%nat)
  ∧ (∀ start,
       getSystemActivity
         (mkFilters (f_action f) (f_resource f) (f_severity f) (f_status f)
            (Some start) None) limit db
       = getSystemActivity
           (mkFilters (f_action f) (f_resource f) (f_severity f) (f_status f)
              None None) limit db)
  ∧ (∀ stop,
       getSystemActivity
         (mkFilters (f_action f) (f_resource f) (f_severity f) (f_status f)
            None (Some stop)) limit db
       = getSystemActivity
           (mkFilters (f_action f) (f_resource f) (f_severity f) (f_status f)
              None None) limit db)
  ∧ getSystemActivity (mkFilters (Some "") (Some "") (Some "") (Some "") None None)
      limit db
    = getSystemActivity (mkFilters None None None None None None) limit db.
Proof.
  intros result. subst result. unfold getSystemActivity.
  rewrite events_of_populated.
  destruct (limited_sorted_selection (λ e, systemQuery f e = true)
              (default 100 limit) (auditLogs db))
    as (Hin & Hsorted & Hlen & _).
  split; [|split; [|split; [|split; [|split]]]]; try done.
  - intros entry (e & -> & He)%list_elem_of_fmap. cbn [fst populateUser].
    destruct (Hin e He) as [Hq Htrail]. split; [done|].
    unfold systemQuery in Hq.
    repeat (apply andb_true_iff in Hq as [Hq ?]).
    repeat split.
    + intros a Ha Hne. rewrite Ha in Hq. cbn [truthy] in Hq.
      rewrite bool_decide_false in Hq by done. cbn [negb] in Hq.
      apply bool_decide_eq_true in Hq. congruence.
    + intros a Ha Hne. rewrite Ha in H2. cbn [truthy] in H2.
      rewrite bool_decide_false in H2 by done. cbn [negb] in H2.
      apply bool_decide_eq_true in H2. congruence.
    + intros a Ha Hne. rewrite Ha in H1. cbn [truthy] in H1.
      rewrite bool_decide_false in H1 by done. cbn [negb] in H1.
      apply bool_decide_eq_true in H1. congruence.
    + intros a Ha Hne. rewrite Ha in H0. cbn [truthy] in H0.
      rewrite bool_decide_false in H0 by done. cbn [negb] in H0.
      apply bool_decide_eq_true in H0. congruence.
    + rewrite H3, H4 in H. apply andb_true_iff in H as [H _].
      by apply bool_decide_eq_true in H.
    + rewrite H3, H4 in H. apply andb_true_iff in H as [_ H].
      by apply bool_decide_eq_true in H.
  - by rewrite length_fmap.
Qed.

(** ** The users router, continued *)

Lemma authenticatedAs_Next env req db me :
  authenticatedAs env req db me →
  authenticateToken env req db
  = (Return (Next (with_user (select_without_password me) req)), db).
Proof.
  intros (tok & p & Htok & Hv & Hme & Hact & Hlock).
  rewrite (authenticateToken_verified _ _ _ _ _ _ Htok Hv Hme).
  by rewrite Hact, Hlock.
Qed.

Lemma deleteUser_as_admin env req db me :
  authenticatedAs env req db me → role me = "admin" →
  isValidObjectId (default "" (params req !! "id")) = true →
  deleteUser env req db
  = deleteUserHandler env (with_user (select_without_password me) req) db.
Proof.
  intros Hauth Hrole Hvalid. unfold deleteUser.
  rewrite (andThen_Next _ _ _ db db (authenticatedAs_Next _ _ _ _ Hauth)).
  rewrite (andThen_Next _ _ (with_user (select_without_password me) req) db db).
  2:{ apply (requireRole_allowed _ _ _ (select_without_password me)); [done|].
      cbn [role select_without_password set_password]. rewrite Hrole. left. }
  rewrite (andThen_Next _ _ (with_user (select_without_password me) req) db db);
    [done|].
  unfold getUserById_validation. cbn [params with_user]. by rewrite Hvalid.
Qed.




Lemma deleteUserHandler_missing env req me id db :
  req_user req = Some me → params req !! "id" = Some id → id ≠ _id me →
  findById id db = Return None →
  deleteUserHandler env req db = (Return user_not_found, db).
Proof.
  intros Hme Hid Hne Hnone. unfold deleteUserHandler. run. rewrite Hme, Hid.
  cbn [from_option]. rewrite bool_decide_false by congruence.
  by rewrite Hnone.
Qed.

(** X22: a delete request that is not carried out changes nothing. When the
    token middleware answers, that answer is the route's; a requester who
    is not an admin is answered 403; an admin is answered 400 for an id
    that the validator refuses and 404 for an id, other than the string
    their own id prints as, under which the lookup finds no account. In
    each case the database is left exactly as it was. *)
Theorem deleteUser_refused env req db :
  (∀ r, authenticateToken env req db = (Return (Send r), db) →
     deleteUser env req db = (Return r, db))
  ∧ (∀ me, authenticatedAs env req db me → role me ≠ "admin" →
     deleteUser env req db
     = (Return (forbidden_role ["admin"] (select_without_password me)), db))
  ∧ (∀ me, authenticatedAs env req db me → role me = "admin" →
     isValidObjectId (default "" (params req !! "id")) = false →
     ∃ r, deleteUser env req db = (Return r, db) ∧ status r = 400)
  ∧ (∀ me id, authenticatedAs env req db me → role me = "admin" →
     params req !! "id" = Some id → isValidObjectId id = true →
     id ≠ _id me → findById id db = Return None →
     deleteUser env req db = (Return user_not_found, db)).
Proof.
  split; [|split; [|split]].
  - intros r Hsend. unfold deleteUser, andThen. run. by rewrite Hsend.
  - intros me Hauth Hrole. unfold deleteUser.
    rewrite (andThen_Next _ _ _ db db (authenticatedAs_Next _ _ _ _ Hauth)).
    unfold andThen at 1. unfold mbind at 1, Async_bind at 1.
    rewrite (requireRole_denied _ _ _ (select_without_password me)); [done..|].
    cbn [role select_without_password set_password].
    rewrite list_elem_of_singleton. done.
  - intros me Hauth Hrole Hinvalid. unfold deleteUser.
    rewrite (andThen_Next _ _ _ db db (authenticatedAs_Next _ _ _ _ Hauth)).
    rewrite (andThen_Next _ _ (with_user (select_without_password me) req) db db).
    2:{ apply (requireRole_allowed _ _ _ (select_without_password me)); [done|].
        cbn [role select_without_password set_password]. rewrite Hrole. left. }
    unfold andThen, getUserById_validation. cbn [params with_user].
    rewrite Hinvalid. run. eauto.
  - intros me id Hauth Hrole Hid Hvalid Hne Hnone.
    rewrite (deleteUser_as_admin _ _ _ _ Hauth Hrole) by (by rewrite Hid).
    by apply (deleteUserHandler_missing _ _ (select_without_password me) id).
Qed.

(** X19: the handler that reads a profile. A requester who is not an admin
    and asks for an id other than the string their own id prints as is
    answered 403 ACCESS_DENIED without the collection being read; an admin,
    or anybody asking for their own id, is answered by the lookup of the
    id: 404 when it finds no account, 500 GET_USER_ERROR when the id cannot
    be cast and the lookup throws, and otherwise 200 with the document it
    found, serialised without the password, emailVerificationToken and
    passwordResetToken paths. The database is never written. *)
Theorem getUser_access req me db :
  req_user req = Some me →
  database (getUserHandler req db) = db
  ∧ (role me ≠ "admin" → params req !! "id" ≠ Some (_id me) →
     response (getUserHandler req db) = Return access_denied)
  ∧ (∀ id, role me = "admin" ∨ id = _id me → params req !! "id" = Some id →
     response (getUserHandler req db)
     = Return match findById id db with
              | Return (Some u) =>
                  res_json
                    (JObj [("user",
                            documentJson
                              ["password"; "emailVerificationToken"; "passwordResetToken"]
                              u)])
              | Return None => user_not_found
              | Throw _ =>
                  mkResponse 500 (error_body "Failed to retrieve user" "GET_USER_ERROR")
              end).
Proof.
  intros Hme. split; [|split].
  - unfold getUserHandler. rewrite Hme. cbn [from_option]. run.
    destruct (negb _ && negb _); [done|].
    destruct (params req !! "id") as [i|]; cbn [from_option]; [|done].
    by destruct (findById i db) as [[u|]|e].
  - intros Hrole Hid. unfold getUserHandler. rewrite Hme. cbn [from_option]. run.
    rewrite (bool_decide_false (role me = "admin")) by done.
    by rewrite bool_decide_false by congruence.
  - intros id Hor Hid. unfold getUserHandler. rewrite Hme, Hid. cbn [from_option]. run.
    assert (Hpass : negb (bool_decide (role me = "admin"))
                    && negb (bool_decide (Some (_id me) = Some id)) = false).
    { destruct Hor as [Hrole | ->].
      - by rewrite (bool_decide_true (role me = "admin")) by done.
      - rewrite (bool_decide_true (Some (_id me) = Some (_id me))) by done.
        by rewrite andb_false_r. }
    rewrite Hpass. by destruct (findById id db) as [[u|]|e].
Qed.


End Backend.

(** ** The properties on the sample data *)

Import Sample.

(** C1, on the code: a student calling an admin-only route, a
    permission-guarded route without the permission, and an ownership-guarded
    route on somebody else's resource is answered 403 each time, and no
    audit event is appended: the UNAUTHORIZED_ACCESS document of the role
    and permission guards is refused by the action enum of the audit schema,
    and the ownership guard writes none. *)
Theorem denied_requests_leave_no_audit_event :
  let byRole := requireRole ["admin"] env0 listUsers db0 in
  let byPermission := requirePermission rolePermissions "course:create" env0 createCourse db0 in
  let byOwner := requireOwnershipOrRole "user" ["admin"] readGrade db0 in
  ("UNAUTHORIZED_ACCESS" ∉ AuditLogModel.action_enum)
  ∧ AuditLogModel.validate
      (unauthorized_access env0 listUsers alice [("requiredRoles", JArr [JStr "admin"])])
    = Some (ValidationError "action")
  ∧ (∃ r, response byRole = Return (Send r) ∧ status r = 403)
  ∧ length (filter (λ e, isDenial e = true) (newAuditEvents db0 (database byRole))) = 0%nat
  ∧ (∃ r, response byPermission = Return (Send r) ∧ status r = 403)
  ∧ length (filter (λ e, isDenial e = true) (newAuditEvents db0 (database byPermission))) = 0%nat
  ∧ (∃ r, response byOwner = Return (Send r) ∧ status r = 403)
  ∧ length (filter (λ e, isDenial e = true) (newAuditEvents db0 (database byOwner))) = 0%nat.
Proof.
  intros byRole byPermission byOwner.
  split; [exact UNAUTHORIZED_ACCESS_not_in_enum|].
  split; [apply unauthorized_access_rejected|].
  split; [eexists; split; [computed | reflexivity]|].
  split; [computed|].
  split; [eexists; split; [computed | reflexivity]|].
  split; [computed|].
  split; [eexists; split; [computed | reflexivity]|].
  computed.
Qed.

Lemma ownership_guard_witness :
  requireOwnershipOrRole "user" ["admin"] enrollment db0 = (Return (Next enrollment), db0)
  ∧ snd (ownershipGuard "user" ["admin"] enrollment) = NotCompared.
Proof.
  apply (proj1 (ownership_guard_skips_check_without_resource
                  "user" ["admin"] enrollment alice "650000000000000000000009" db0)).
  - reflexivity.
  - decided.
  - computed.
  - discriminate.
  - reflexivity.
Defined.

Lemma lockout_is_checked_before_password_witness :
  login hmac bcrypt_compare fullName env0 anonymous "bob@example.com" "B0b!pass" db0
    = (Return account_locked, db0)
  ∧ let run := loginSequence hmac bcrypt_compare fullName
                 (fourGuesses ++ [fifthGuess]) "alice@example.com" db0 in
    fst run = replicate 5 (Return invalid_credentials)
    ∧ 1004000 < 1004000 + lockoutDuration
    ∧ (∃ u5, findByEmail "alice@example.com" (snd run) = Some u5
             ∧ lockUntil u5 = Some (1004000 + lockoutDuration))
    ∧ (∀ env req pw, now env < 1004000 + lockoutDuration →
         login hmac bcrypt_compare fullName env req "alice@example.com" pw (snd run)
         = (Return account_locked, snd run)).
Proof.
  split.
  - apply (proj1 (lockout_is_checked_before_password hmac bcrypt_compare fullName)
             env0 anonymous "bob@example.com" "B0b!pass" db0 bob); reflexivity.
  - apply (proj2 (lockout_is_checked_before_password hmac bcrypt_compare fullName)
             fourGuesses fifthGuess "alice@example.com" db0 alice).
    + reflexivity.
    + reflexivity.
    + reflexivity.
    + reflexivity.
    + repeat constructor; computed.
Defined.

Lemma token_round_trip_witness :
  ((∃ p, jwt_verify hmac (generateToken hmac (at_time 900000) bob_id)
           "s3cret" 1000000 = Return p ∧ userId p = bob_id)
   ∧ (∀ req db u,
        bearerToken req = Some (generateToken hmac (at_time 900000) bob_id) →
        findById bob_id db = Return (Some u) → isActive u = true →
        isLocked 1000000 u = false →
        authenticateToken hmac env0 req db
          = (Return (Next (with_user (select_without_password u) req)), db)
        ∧ castObjectId bob_id = Some (_id u)))
  ∧ (jwt_verify hmac (generateToken hmac (at_time 900000) bob_id)
       "s3cret" 605700000 = Throw TokenExpiredError
     ∧ (∀ req db,
          bearerToken req = Some (generateToken hmac (at_time 900000) bob_id) →
          authenticateToken hmac (at_time 605700000) req db
            = (Return (Send (mkResponse 401 (error_body "Token expired" "TOKEN_EXPIRED"))),
               db))).
Proof.
  split.
  - apply (proj1 (token_round_trip hmac (at_time 900000) bob_id env0 eq_refl)).
    computed.
  - apply (proj2 (token_round_trip hmac (at_time 900000) bob_id (at_time 605700000) eq_refl)).
    vm_compute. discriminate.
Defined.

Lemma locked_account_status_witness :
  (∃ r, login hmac bcrypt_compare fullName env0 meAsBob "bob@example.com" "B0b!pass" db0
        = (Return r, db0)
        ∧ status r = 423
        ∧ body r = error_body
            "Account is temporarily locked due to too many failed login attempts"
            "ACCOUNT_LOCKED")
  ∧ (∃ r, authenticateToken hmac env0 meAsBob db0 = (Return (Send r), db0)
          ∧ status r = 401
          ∧ (isActive bob = true →
             body r = error_body "Account is temporarily locked" "ACCOUNT_LOCKED")).
Proof.
  pose proof (locked_account_status hmac bcrypt_compare fullName env0 meAsBob db0 bob
                eq_refl) as [Hlogin Hbearer].
  split.
  - apply (Hlogin "bob@example.com" "B0b!pass"). reflexivity.
  - apply (Hbearer bobToken bobPayload); reflexivity.
Defined.

(** C2, counterexample: Bob is locked until t = 9 000 000; at t = 1 000 000
    his valid bearer token is answered with status 401, not 423. *)
Lemma locked_bearer_request_is_not_423 :
  isLocked (now env0) bob = true
  ∧ jwt_verify hmac bobToken (JWT_SECRET env0) (now env0) = Return bobPayload
  ∧ findById (userId bobPayload) db0 = Return (Some bob)
  ∧ ∃ r, authenticateToken hmac env0 meAsBob db0 = (Return (Send r), db0)
         ∧ status r = 401 ∧ status r ≠ 423.
Proof.
  split; [reflexivity|]. split; [reflexivity|]. split; [reflexivity|].
  eexists. split; [computed|]. split; [reflexivity | discriminate].
Qed.

Lemma login_failures_indistinguishable_witness :
  response (login hmac bcrypt_compare fullName env0 anonymous
              "nobody@example.com" "guess" db0)
  = response (login hmac bcrypt_compare fullName env0 anonymous
                "alice@example.com" "guess" db0)
  ∧ response (login hmac bcrypt_compare fullName env0 anonymous
                "alice@example.com" "guess" db0)
    = Return (mkResponse 401 (error_body "Invalid email or password" "INVALID_CREDENTIALS")).
Proof.
  apply (login_failures_indistinguishable hmac bcrypt_compare fullName
           env0 anonymous "nobody@example.com" "guess"
           env0 anonymous "alice@example.com" "guess" db0 alice);
    reflexivity.
Defined.

(** C5, counterexample: a wrong password for Bob, who exists and is locked,
    is answered 423 ACCOUNT_LOCKED, while the same request for an unknown
    email is answered 401 INVALID_CREDENTIALS. *)
Lemma login_failures_distinguishable_when_locked :
  findByEmail "nobody@example.com" db0 = None
  ∧ findByEmail "bob@example.com" db0 = Some bob
  ∧ comparePassword bcrypt_compare bob "guess" = false
  ∧ response (login hmac bcrypt_compare fullName env0 anonymous
                "nobody@example.com" "guess" db0) = Return invalid_credentials
  ∧ response (login hmac bcrypt_compare fullName env0 anonymous
                "bob@example.com" "guess" db0) = Return account_locked
  ∧ status account_locked ≠ 401
  ∧ response (login hmac bcrypt_compare fullName env0 anonymous
                "nobody@example.com" "guess" db0)
    ≠ response (login hmac bcrypt_compare fullName env0 anonymous
                  "bob@example.com" "guess" db0).
Proof.
  repeat split; try reflexivity; vm_compute; discriminate.
Qed.

Lemma sample_users x :
  x ∈ users db0 → x = root ∨ x = alice ∨ x = bob.
Proof.
  cbn [users db0]. rewrite !elem_of_cons, elem_of_nil. tauto.
Qed.

Lemma reset_with_operator_token_witness :
  (∀ y s, passwordResetToken y = Some s → notNull ≠ BStr s)
  ∧ ∃ u db1,
      u ∈ users db0 ∧ isSet (passwordResetToken u) = true
      ∧ resetPassword hashPassword env0 anonymous notNull "N3w!Passw" db0
        = (Return (res_json (JObj [("message", JStr "Password reset successful")])), db1)
      ∧ response (resetPassword hashPassword env0 anonymous notNull "N3w!Passw" db0)
        ≠ Return invalid_reset_token
      ∧ users db1
        = (λ y, if bool_decide (_id y = _id u)
                then clearReset (hashPassword "N3w!Passw") y else y) <$> users db0
      ∧ password (clearReset (hashPassword "N3w!Passw") u) = hashPassword "N3w!Passw".
Proof.
  apply (reset_with_operator_token hashPassword env0 anonymous
           isSet "N3w!Passw" db0 bob).
  - cbn [users db0]. set_solver.
  - reflexivity.
  - exists 5000000. split; [reflexivity | computed].
Defined.

(** The reset route on the sample data, the token being a string: an
    unknown token is refused, Bob's token resets his password once. *)
Example reset_with_string_token_sample :
  resetPassword hashPassword env0 anonymous (BStr "0000") "N3w!Passw" db0
    = (Return invalid_reset_token, db0)
  ∧ ∃ db1,
      resetPassword hashPassword env0 anonymous (BStr "f00d") "N3w!Passw" db0
        = (Return (res_json (JObj [("message", JStr "Password reset successful")])), db1)
      ∧ resetPassword hashPassword (at_time 1000001) anonymous (BStr "f00d") "0ther!Pass" db1
        = (Return invalid_reset_token, db1).
Proof.
  split.
  - apply (proj1 (reset_with_string_token hashPassword env0 anonymous "0000" "N3w!Passw" db0)).
    intros x [-> | [-> | ->]]%sample_users [Htok _]; discriminate Htok.
  - destruct (proj2 (reset_with_string_token hashPassword env0 anonymous "f00d" "N3w!Passw" db0))
      as (u & db1 & _ & _ & Hreset & _ & _ & _ & Hagain).
    + exists bob. split; [cbn [users db0]; set_solver|].
      split; [reflexivity|]. exists 5000000. split; [reflexivity | computed].
    + exists db1. split; [exact Hreset|]. apply Hagain.
      intros x y [-> | [-> | ->]]%sample_users [-> | [-> | ->]]%sample_users Hx Hy;
        first [discriminate Hx | discriminate Hy | reflexivity].
Qed.

Lemma forgotPassword_same_response_witness :
  response (forgotPassword env0 anonymous "nobody@example.com" db0)
  = response (forgotPassword env0 anonymous "alice@example.com" db0)
  ∧ response (forgotPassword env0 anonymous "alice@example.com" db0)
    = Return (res_json reset_link_sent).
Proof.
  apply (forgotPassword_same_response env0 anonymous "nobody@example.com"
           env0 anonymous "alice@example.com" db0 alice); reflexivity.
Defined.

Lemma mail_failure_register_vs_forgotPassword_witness :
  (∃ user db',
     register hmac hashPassword fullName mailDown anonymous
       "carol@example.com" "Car0l!pass" "Carol" "Poe" None db0
     = (Return (mkResponse 201
          (JObj [("message", JStr
                   "User registered successfully. Please check your email for verification.");
                 ("token", JTok (generateToken hmac mailDown (_id user)));
                 ("user", JObj (profile fullName user))])),
        db')
     ∧ users db' = users db0 ++ [user]
     ∧ email user = "carol@example.com" ∧ isActive user = true
     ∧ isEmailVerified user = false)
  ∧ response (forgotPassword mailDown anonymous "alice@example.com" db0)
    = Return (mkResponse 500
        (error_body "Failed to send password reset email" "EMAIL_SEND_ERROR"))
  ∧ response (forgotPassword mailDown anonymous "alice@example.com" db0)
    ≠ Return (res_json reset_link_sent).
Proof.
  pose proof (mail_failure_register_vs_forgotPassword hmac hashPassword fullName
                mailDown eq_refl) as [Hregister Hforgot].
  split.
  - apply Hregister. reflexivity.
  - apply (Hforgot anonymous "alice@example.com" db0 alice). reflexivity.
Defined.

Lemma admin_deletes_self_by_other_spelling_witness :
  ∃ db',
    deleteUser hmac isValidObjectId env0 adaDeletesSelf db3
    = (Return (res_json (JObj [("message", JStr "User deleted successfully")])), db')
    ∧ status (res_json (JObj [("message", JStr "User deleted successfully")])) = 200
    ∧ findById (userId adaPayload) db' = Return (Some (softDeleted env0 ada ada))
    ∧ isActive (softDeleted env0 ada ada) = false
    ∧ email (softDeleted env0 ada ada)
      = "deleted_" +:+ pretty (now env0) +:+ "_" +:+ email ada
    ∧ (∀ env2 req2,
         bearerToken req2 = Some adaToken →
         jwt_verify hmac adaToken (JWT_SECRET env2) (now env2) = Return adaPayload →
         authenticateToken hmac env2 req2 db' = (Return (Send account_deactivated), db')).
Proof.
  apply (admin_deletes_self_by_other_spelling hmac isValidObjectId
           env0 adaDeletesSelf adaToken adaPayload ada "65AB000000000000000000A7" db3).
  - reflexivity.
  - reflexivity.
  - reflexivity.
  - reflexivity.
  - reflexivity.
  - reflexivity.
  - reflexivity.
  - reflexivity.
  - discriminate.
  - reflexivity.
Defined.

(** The delete route on the sample data: the admin's own id as it prints
    is refused, Alice's account is deactivated and kept. *)
Example deleteUser_soft_sample :
  deleteUser hmac isValidObjectId env0 deleteSelf db0
    = (Return (mkResponse 400
         (error_body "Cannot delete your own account" "CANNOT_DELETE_SELF")), db0)
  ∧ ∃ db',
      deleteUser hmac isValidObjectId env0 deleteAlice db0
        = (Return (res_json (JObj [("message", JStr "User deleted successfully")])), db')
      ∧ findById alice_id db' = Return (Some (softDeleted env0 alice alice))
      ∧ email (softDeleted env0 alice alice) = "deleted_1000000_alice@example.com"
      ∧ length (users db') = 3%nat.
Proof.
  split.
  - apply (proj1 (deleteUser_soft hmac isValidObjectId
                    env0 deleteSelf rootToken rootPayload root root_id db0
                    eq_refl eq_refl eq_refl eq_refl eq_refl eq_refl eq_refl eq_refl)).
    reflexivity.
  - destruct (proj2 (deleteUser_soft hmac isValidObjectId
                       env0 deleteAlice rootToken rootPayload root alice_id db0
                       eq_refl eq_refl eq_refl eq_refl eq_refl eq_refl eq_refl eq_refl))
      with (target := alice)
      as (db' & Hdel & _ & Hfind & _ & Hmail & Hlen & _).
    + discriminate.
    + reflexivity.
    + exists db'. split; [exact Hdel|]. split; [exact Hfind|].
      split; [rewrite Hmail; computed | exact Hlen].
Qed.

(** ** The further properties on the sample data *)

Lemma authenticateToken_rejects_witness :
  authenticateToken hmac env0 anonymous db0 = (Return (Send token_required), db0)
  ∧ authenticateToken hmac env0 meForged db0 = (Return (Send invalid_token), db0).
Proof.
  split.
  - apply (proj1 (authenticateToken_rejects hmac env0 anonymous db0)). reflexivity.
  - apply (proj1 (proj2 (proj2 (authenticateToken_rejects hmac env0 meForged db0)))
             alicePayload "forged").
    + vm_compute. discriminate.
    + reflexivity.
Defined.

Lemma requireRole_decides_witness :
  response (requireRole ["admin"] env0 listUsers db0)
  = Return (Send (forbidden_role ["admin"] alice)).
Proof.
  apply (proj2 (proj2 (requireRole_decides ["admin"] env0 listUsers db0)) alice eq_refl).
  decided.
Defined.

Lemma requireOwnershipOrRole_decides_witness :
  response (requireOwnershipOrRole "user" ["admin"] readGrade db0)
  = Return (Send (mkResponse 403
      (error_body "Access denied - not resource owner" "NOT_RESOURCE_OWNER"))).
Proof.
  apply (proj2 (proj2 (proj2
           (requireOwnershipOrRole_decides "user" ["admin"] readGrade alice db0 eq_refl)))
           {["user" := bob_id]} bob_id).
  - decided.
  - computed.
  - reflexivity.
  - computed.
  - discriminate.
Defined.

Lemma register_twice_witness :
  (∃ r, response (register hmac hashPassword fullName env0 anonymous
                    "dave@example.com" "Dav3!pass" "Dave" "Moe" None db0) = Return r
        ∧ status r = 201)
  ∧ register hmac hashPassword fullName (at_time 1000500) anonymous
      "dave@example.com" "0ther!Pass" "David" "Moe" (Some "admin")
      (database (register hmac hashPassword fullName env0 anonymous
                   "dave@example.com" "Dav3!pass" "Dave" "Moe" None db0))
    = (Return user_exists,
       database (register hmac hashPassword fullName env0 anonymous
                   "dave@example.com" "Dav3!pass" "Dave" "Moe" None db0)).
Proof.
  destruct (register_twice hmac hashPassword fullName env0 anonymous
              "dave@example.com" "Dav3!pass" "Dave" "Moe" None db0 eq_refl)
    as [Hfirst Hsecond].
  split; [exact Hfirst | apply Hsecond].
Defined.

Lemma register_then_login_witness :
  ∃ user,
    response (login hmac bcrypt_compare fullName (at_time 1000500) anonymous
                "dave@example.com" "Dav3!pass"
                (database (register hmac hashPassword fullName env0 anonymous
                             "dave@example.com" "Dav3!pass" "Dave" "Moe" None db0)))
    = Return (login_ok hmac fullName (at_time 1000500) user)
    ∧ _id user = newObjectId env0 ∧ email user = "dave@example.com"
    ∧ status (login_ok hmac fullName (at_time 1000500) user) = 200.
Proof.
  apply (register_then_login hmac hashPassword bcrypt_compare fullName env0 anonymous
           "dave@example.com" "Dav3!pass" "Dave" "Moe" None db0
           (at_time 1000500) anonymous).
  - reflexivity.
  - computed.
Defined.

Lemma login_then_authenticate_witness :
  response (login hmac bcrypt_compare fullName env0 anonymous
              "alice@example.com" "Passw0rd!" db0)
  = Return (login_ok hmac fullName env0 alice)
  ∧ authenticateToken hmac env0 meAsAlice
      (database (login hmac bcrypt_compare fullName env0 anonymous
                   "alice@example.com" "Passw0rd!" db0))
    = (Return (Next (with_user (select_without_password (loggedIn env0 alice)) meAsAlice)),
       database (login hmac bcrypt_compare fullName env0 anonymous
                   "alice@example.com" "Passw0rd!" db0))
  ∧ lastLogin (loggedIn env0 alice) = Some (now env0).
Proof.
  apply (login_then_authenticate hmac bcrypt_compare fullName env0 anonymous
           "alice@example.com" "Passw0rd!" db0 alice meAsAlice).
  - reflexivity.
  - reflexivity.
  - reflexivity.
  - reflexivity.
  - computed.
  - computed.
  - reflexivity.
Defined.

Lemma login_audit_witness :
  newAuditEvents db0
    (database (login hmac bcrypt_compare fullName env0 anonymous
                 "alice@example.com" "guess" db0))
  = [failedLoginEvent env0 anonymous "alice@example.com" alice].
Proof.
  apply (proj2 (proj2 (login_audit hmac bcrypt_compare fullName env0 anonymous
                         "alice@example.com" "guess" db0)) alice);
    reflexivity.
Defined.

Lemma sample_users1 x :
  x ∈ users db1 → x = root ∨ x = alice ∨ x = bob ∨ x = carol.
Proof.
  cbn [users db1]. rewrite !elem_of_cons, elem_of_nil. tauto.
Qed.

Lemma verifyEmail_single_use_witness :
  verifyEmail fullName env0 anonymous BNull db1
    = (Return (mkResponse 400
         (error_body "Verification token is required" "TOKEN_REQUIRED")), db1)
  ∧ verifyEmail fullName env0 anonymous (BStr "0000") db1
    = (Return invalid_verification_token, db1)
  ∧ (∃ db2,
      verifyEmail fullName env0 anonymous (BStr "beef") db1
        = (Return (verified_ok fullName carol), db2)
      ∧ verifyEmail fullName (at_time 1000001) anonymous (BStr "beef") db2
        = (Return invalid_verification_token, db2))
  ∧ ∃ u db2,
      u ∈ users db1 ∧ isSet (emailVerificationToken u) = true
      ∧ verifyEmail fullName env0 anonymous notNull db1
        = (Return (verified_ok fullName u), db2)
      ∧ users db2
        = (λ x, if bool_decide (_id x = _id u) then set_verified x else x) <$> users db1.
Proof.
  pose proof (verifyEmail_single_use fullName env0 anonymous db1)
    as (Hnone & Hunknown & Hknown & Hoperators).
  split; [by apply Hnone|]. split; [|split].
  - apply Hunknown; [discriminate|].
    intros x [-> | [-> | [-> | ->]]]%sample_users1; discriminate.
  - destruct (Hknown "beef" carol) as (u & db2 & Hu & Hheld & Hrun & _ & _ & _ & Hagain).
    + discriminate.
    + cbn [users db1]. set_solver.
    + reflexivity.
    + assert (u = carol) as ->.
      { apply sample_users1 in Hu as [-> | [-> | [-> | ->]]];
          first [discriminate Hheld | reflexivity]. }
      exists db2. split; [exact Hrun|]. apply Hagain.
      intros x y [-> | [-> | [-> | ->]]]%sample_users1
        [-> | [-> | [-> | ->]]]%sample_users1 Hx Hy;
        first [discriminate Hx | discriminate Hy | reflexivity].
  - apply (Hoperators isSet carol).
    + cbn [users db1]. set_solver.
    + reflexivity.
Defined.

Lemma fresh_reset_token x :
  x ∈ users db0 → passwordResetToken x ≠ Some (randomHex env0).
Proof. intros [-> | [-> | ->]]%sample_users; discriminate. Qed.

Lemma forgotPassword_then_resetPassword_witness :
  (∃ db2,
     resetPassword hashPassword (at_time 2000000) anonymous (BStr "c0ffee") "N3w!Passw"
       (database (forgotPassword mailDown anonymous "alice@example.com" db0))
     = (Return reset_ok, db2)
     ∧ findByEmail "alice@example.com" db2
       = Some (clearReset (hashPassword "N3w!Passw") (withResetToken mailDown alice))
     ∧ password (clearReset (hashPassword "N3w!Passw") (withResetToken mailDown alice))
       = hashPassword "N3w!Passw")
  ∧ resetPassword hashPassword (at_time 4600000) anonymous (BStr "c0ffee") "N3w!Passw"
      (database (forgotPassword mailDown anonymous "alice@example.com" db0))
    = (Return invalid_reset_token,
       database (forgotPassword mailDown anonymous "alice@example.com" db0)).
Proof.
  split.
  - apply (proj1 (forgotPassword_then_resetPassword hashPassword mailDown anonymous
                    "alice@example.com" db0 alice (at_time 2000000) anonymous
                    "N3w!Passw" eq_refl fresh_reset_token)).
    computed.
  - apply (proj2 (forgotPassword_then_resetPassword hashPassword mailDown anonymous
                    "alice@example.com" db0 alice (at_time 4600000) anonymous
                    "N3w!Passw" eq_refl fresh_reset_token)).
    vm_compute. discriminate.
Defined.

Lemma forgotPassword_stores_token_witness :
  findByEmail "alice@example.com"
    (database (forgotPassword mailDown anonymous "alice@example.com" db0))
  = Some (withResetToken mailDown alice)
  ∧ newAuditEvents db0
      (database (forgotPassword mailDown anonymous "alice@example.com" db0)) = [].
Proof.
  destruct (proj2 (forgotPassword_stores_token mailDown anonymous "alice@example.com" db0)
              alice eq_refl) as (_ & Hfind & _ & _ & Hnew).
  split; [exact Hfind | exact Hnew].
Defined.

Lemma changePassword_replaces_hash_witness :
  changePasswordHandler hashPassword bcrypt_compare env0 aliceProfile
    "guess" "N3w!Passw" db0
  = (Return invalid_current_password, db0)
  ∧ response (changePasswordHandler hashPassword bcrypt_compare env0 aliceProfile
                "Passw0rd!" "N3w!Passw" db0)
    = Return password_changed
  ∧ lookupId alice_id
      (database (changePasswordHandler hashPassword bcrypt_compare env0 aliceProfile
                   "Passw0rd!" "N3w!Passw" db0))
    = Some (set_password (hashPassword "N3w!Passw") alice).
Proof.
  split.
  - apply (proj1 (proj2 (changePassword_replaces_hash hmac hashPassword bcrypt_compare
                           fullName env0 aliceProfile alice "guess" "N3w!Passw" db0
                           eq_refl)) alice); reflexivity.
  - destruct (proj2 (proj2 (changePassword_replaces_hash hmac hashPassword bcrypt_compare
                              fullName env0 aliceProfile alice "Passw0rd!" "N3w!Passw"
                              db0 eq_refl)) alice) as (Hok & Hfind & _).
    + reflexivity.
    + computed.
    + split; [exact Hok | exact Hfind].
Defined.

Lemma getUser_access_witness :
  response (getUserHandler documentJson aliceReadsBob db0) = Return access_denied
  ∧ response (getUserHandler documentJson aliceReadsSelf db0)
    = Return (res_json
        (JObj [("user",
                documentJson ["password"; "emailVerificationToken"; "passwordResetToken"]
                  alice)])).
Proof.
  split.
  - apply (proj1 (proj2 (getUser_access documentJson aliceReadsBob alice db0 eq_refl)));
      [discriminate | vm_compute; discriminate].
  - apply (proj2 (proj2 (getUser_access documentJson aliceReadsSelf alice db0 eq_refl))
             alice_id); [by right | computed].
Defined.



Lemma alice_session : authenticatedAs hmac env0 aliceDeletesBob db0 alice.
Proof. exists aliceToken, alicePayload. repeat split; reflexivity. Qed.


Lemma deleteUser_refused_witness :
  deleteUser hmac isValidObjectId env0 aliceDeletesBob db0
  = (Return (forbidden_role ["admin"] (select_without_password alice)), db0).
Proof.
  apply (proj1 (proj2 (deleteUser_refused hmac isValidObjectId env0 aliceDeletesBob db0))
           alice alice_session).
  discriminate.
Defined.

(** The activity queries on a trail of three events. *)
Example getUserActivity_sample :
  fst <$> getUserActivity alice_id None db2
    = [event alice_id "PASSWORD_RESET" "MEDIUM" 30; event alice_id "LOGIN" "LOW" 10]
  ∧ fst <$> getUserActivity alice_id (Some 1) db2
    = [event alice_id "PASSWORD_RESET" "MEDIUM" 30]
  ∧ snd <$> getUserActivity bob_id (Some 0) db2
    = [Some (JObj [("_id", JStr bob_id); ("firstName", JStr "Bob");
                   ("lastName", JStr "Roe"); ("email", JStr "bob@example.com")])].
Proof. repeat split; computed. Qed.

Example getSystemActivity_sample :
  fst <$> getSystemActivity (mkFilters (Some "LOGIN") None None None None None) None db2
    = [event bob_id "LOGIN" "LOW" 20; event alice_id "LOGIN" "LOW" 10]
  ∧ fst <$> getSystemActivity (mkFilters None None None None (Some 15) (Some 25)) None db2
    = [event bob_id "LOGIN" "LOW" 20]
  ∧ fst <$> getSystemActivity (mkFilters None None None None (Some 15) None) None db2
    = [event alice_id "PASSWORD_RESET" "MEDIUM" 30; event bob_id "LOGIN" "LOW" 20;
       event alice_id "LOGIN" "LOW" 10].
Proof. repeat split; computed. Qed.
